(** * gistapi: a shallow embedding of [gistapi/gistapi.py]

    The module is a Flask service with two endpoints, [/ping] and
    [/api/v1/search].  The search endpoint lists the gists of a user through
    the GitHub API, downloads each gist, tests the content of its first file
    against a regular expression and answers with the URLs of the gists that
    matched.

    The code is Python 2 ([get_data.keys()[0]] indexes the list of keys), so
    the embedding follows Python 2: text decoded from JSON is [unicode],
    string literals of the module are [str], and mixing the two goes through
    the ASCII codec.

    Conventions of the embedding:
    - JSON values as Python sees them after [json.loads]: an inductive type,
      an object being the association list of its items in iteration order;
      numbers are integers;
    - text as [string]; a character is a code point below 256 and is ASCII
      when it is below 128;
    - a Python exception is a value of [exn]; code that can raise returns a
      [result];
    - the network is a state [World] threaded through every call
      ([requests.get] is a parameter of the development), so a computation
      is a function [World -> result A * World];
    - the parser of the [re] module is a parameter too ([re_compile]); what a
      compiled pattern matches is defined here on its syntax tree. *)

From Stdlib Require Import List String Ascii Bool Arith ZArith Lia.
From Stdlib Require Import DecimalString.
Import ListNotations.
Open Scope string_scope.
Open Scope list_scope.

Set Implicit Arguments.
Set Warnings "-register-all".

(** ** Values *)

Inductive json : Type :=
| JNull
| JBool (b : bool)
| JNum (n : Z)
| JStr (s : string)
| JArr (items : list json)
| JObj (items : list (string * json)).

(** The exceptions the module can meet; all are subclasses of [Exception]. *)
Inductive exn : Type :=
| KeyError
| IndexError
| TypeError
| AttributeError
| ValueError
| UnicodeEncodeError
| ConnectionError
| ReError.

Inductive result (A : Type) : Type :=
| Ok (a : A)
| Raise (e : exn).

Arguments Ok {A} a.
Arguments Raise {A} e.

Module Res.

Definition bind {A B} (r : result A) (k : A -> result B) : result B :=
  match r with
  | Ok a => k a
  | Raise e => Raise e
  end.

End Res.

(** ** Python primitives on JSON values *)

(** [d[key]] on an association list: the first item with that key. *)
Fixpoint dict_get (items : list (string * json)) (key : string) : option json :=
  match items with
  | [] => None
  | (k, v) :: rest => if String.eqb k key then Some v else dict_get rest key
  end.

(** [d[key] = v]: replaces the value of an existing key, appends otherwise. *)
Fixpoint dict_set (items : list (string * json)) (key : string) (v : json)
  : list (string * json) :=
  match items with
  | [] => [(key, v)]
  | (k, v0) :: rest =>
      if String.eqb k key then (k, v) :: rest else (k, v0) :: dict_set rest key v
  end.

(** [v[key]] with a string key.  A dict looks the key up; a list or a string
    wants an integer index; the other values are not subscriptable. *)
Definition py_getitem (v : json) (key : string) : result json :=
  match v with
  | JObj items =>
      match dict_get items key with
      | Some x => Ok x
      | None => Raise KeyError
      end
  | _ => Raise TypeError
  end.

Fixpoint chars (s : string) : list json :=
  match s with
  | EmptyString => []
  | String c rest => JStr (String c EmptyString) :: chars rest
  end.

(** What [for x in v] iterates over: the elements of a list, the keys of a
    dict, the characters of a string; the other values are not iterable. *)
Definition py_iter (v : json) : result (list json) :=
  match v with
  | JArr items => Ok items
  | JObj items => Ok (map (fun kv => JStr (fst kv)) items)
  | JStr s => Ok (chars s)
  | _ => Raise TypeError
  end.

(** [v.keys()]: only a dict has the method. *)
Definition py_keys (v : json) : result (list string) :=
  match v with
  | JObj items => Ok (map fst items)
  | _ => Raise AttributeError
  end.

(** [l[0]]. *)
Definition py_first {A} (l : list A) : result A :=
  match l with
  | [] => Raise IndexError
  | x :: _ => Ok x
  end.

Definition is_ascii_char (c : ascii) : bool := (nat_of_ascii c <? 128)%nat.

Fixpoint is_ascii (s : string) : bool :=
  match s with
  | EmptyString => true
  | String c rest => is_ascii_char c && is_ascii rest
  end.

(** [str(u)] on a [unicode] value encodes with the ASCII codec. *)
Definition py_str (u : string) : result string :=
  if is_ascii u then Ok u else Raise UnicodeEncodeError.

Definition string_of_Z (n : Z) : string := NilZero.string_of_int (Z.to_int n).

(** ** Regular expressions

    What a compiled pattern matches, on its syntax tree.  [Sym p] is a single
    character accepted by [p] (a literal, the dot, a class), [Bol] is [^] and
    [Eol] is [$], both without the MULTILINE flag. *)

Module Re.

Inductive regex : Type :=
| Void
| Eps
| Sym (p : ascii -> bool)
| Bol
| Eol
| Cat (r1 r2 : regex)
| Alt (r1 r2 : regex)
| Star (r : regex).

Definition newline : ascii := "010"%char.

Definition Lit (c : ascii) : regex := Sym (Ascii.eqb c).
Definition Dot : regex := Sym (fun c => negb (Ascii.eqb c newline)).
Definition Plus (r : regex) : regex := Cat r (Star r).
Definition Opt (r : regex) : regex := Alt r Eps.

Definition is_nil {A} (l : list A) : bool :=
  match l with
  | [] => true
  | _ => false
  end.

(** [$] matches at the end of the text and just before a final newline. *)
Definition at_end (rest : list ascii) : bool :=
  match rest with
  | [] => true
  | [c] => Ascii.eqb c newline
  | _ => false
  end.

(** [matches r b w rest]: at a position followed by [w ++ rest], which is the
    start of the text when [b] is true, the expression [r] can match exactly
    the characters [w]. *)
Inductive matches : regex -> bool -> list ascii -> list ascii -> Prop :=
| MEps b rest : matches Eps b [] rest
| MSym p b c rest : p c = true -> matches (Sym p) b [c] rest
| MBol rest : matches Bol true [] rest
| MEol b rest : at_end rest = true -> matches Eol b [] rest
| MCat r1 r2 b w1 w2 rest :
    matches r1 b w1 (w2 ++ rest) ->
    matches r2 (b && is_nil w1) w2 rest ->
    matches (Cat r1 r2) b (w1 ++ w2) rest
| MAltL r1 r2 b w rest : matches r1 b w rest -> matches (Alt r1 r2) b w rest
| MAltR r1 r2 b w rest : matches r2 b w rest -> matches (Alt r1 r2) b w rest
| MStarNil r b rest : matches (Star r) b [] rest
| MStarCons r b w1 w2 rest :
    matches r b w1 (w2 ++ rest) ->
    matches (Star r) (b && is_nil w1) w2 rest ->
    matches (Star r) b (w1 ++ w2) rest.

(** [match_at r s i]: [r] matches some stretch of [s] that starts at
    index [i]. *)
Definition match_at (r : regex) (s : list ascii) (i : nat) : Prop :=
  exists pre w rest,
    s = pre ++ w ++ rest /\ List.length pre = i /\ matches r (is_nil pre) w rest.

(** The executable matcher, by derivatives. *)

Fixpoint nullable (b : bool) (s : list ascii) (r : regex) : bool :=
  match r with
  | Void => false
  | Eps => true
  | Sym _ => false
  | Bol => b
  | Eol => at_end s
  | Cat r1 r2 => nullable b s r1 && nullable b s r2
  | Alt r1 r2 => nullable b s r1 || nullable b s r2
  | Star _ => true
  end.

(** The expression left to match once [c], the head of [s], is consumed. *)
Fixpoint deriv (b : bool) (s : list ascii) (c : ascii) (r : regex) : regex :=
  match r with
  | Void | Eps | Bol | Eol => Void
  | Sym p => if p c then Eps else Void
  | Cat r1 r2 =>
      Alt (Cat (deriv b s c r1) r2)
          (if nullable b s r1 then deriv b s c r2 else Void)
  | Alt r1 r2 => Alt (deriv b s c r1) (deriv b s c r2)
  | Star r1 => Cat (deriv b s c r1) (Star r1)
  end.

(** Does [r] match a prefix of [s]? *)
Fixpoint match_here (s : list ascii) (r : regex) (b : bool) : bool :=
  nullable b s r ||
  match s with
  | [] => false
  | c :: s' => match_here s' (deriv b s c r) false
  end.

(** Does [r] match somewhere in [s]? *)
Fixpoint search_here (s : list ascii) (r : regex) (b : bool) : bool :=
  match_here s r b ||
  match s with
  | [] => false
  | _ :: s' => search_here s' r false
  end.

(** [p.match(text)] and [p.search(text)], as the truth value of what they
    return (a match object is true, [None] is false). *)
Definition pattern_match (r : regex) (text : string) : bool :=
  match_here (list_ascii_of_string text) r true.

Definition pattern_search (r : regex) (text : string) : bool :=
  search_here (list_ascii_of_string text) r true.

(** The expression that matches the characters of [s] in sequence. *)
Fixpoint literal (s : string) : regex :=
  match s with
  | EmptyString => Eps
  | String c rest => Cat (Lit c) (literal rest)
  end.

End Re.

(** ** The runtime the module runs on

    [requests.get], the parser of [re] and the [repr] of lists and dicts are
    library code; the development is parametric in them. *)

(** What [requests.get] returns; [body] is the decoded JSON text, if the
    body is JSON at all. *)
Record response : Type := Response { body : option json }.

(** [response.json()]. *)
Definition response_json (r : response) : result json :=
  match body r with
  | Some v => Ok v
  | None => Raise ValueError
  end.

Class Runtime : Type := {
  World : Type;
  requests_get : string -> World -> result response * World;
  re_compile : string -> result Re.regex;
  container_repr : json -> string
}.

(** ** Computations over the network *)

Module Py.
Section Monad.
Context {R : Runtime}.

Definition t (A : Type) : Type := World -> result A * World.

Definition ret {A} (a : A) : t A := fun w => (Ok a, w).

Definition lift {A} (r : result A) : t A := fun w => (r, w).

Definition bind {A B} (m : t A) (k : A -> t B) : t B :=
  fun w =>
    match m w with
    | (Ok a, w') => k a w'
    | (Raise e, w') => (Raise e, w')
    end.

(** [try: body except Exception: handler]. *)
Definition try_except {A} (body : t A) (handler : t A) : t A :=
  fun w =>
    match body w with
    | (Ok a, w') => (Ok a, w')
    | (Raise _, w') => handler w'
    end.

(** [for x in items: st = body x st]. *)
Fixpoint for_each {A S} (items : list A) (body : A -> S -> t S) (st : S) : t S :=
  match items with
  | [] => ret st
  | x :: rest => bind (body x st) (for_each rest body)
  end.

End Monad.
End Py.

Declare Scope py_scope.
Delimit Scope py_scope with py.
Notation "x <- m ;; k" := (Py.bind m (fun x => k))
  (at level 61, m at next level, right associativity) : py_scope.
Notation "x <~ r ;; k" := (Py.bind (Py.lift r) (fun x => k))
  (at level 61, r at next level, right associativity) : py_scope.

(** ** The module *)

Section Gistapi.
Context {R : Runtime}.
Open Scope py_scope.

(** How [str.format] renders a keyword argument inside a [str] template.
    Text must encode to ASCII; a container is rendered by its [repr]. *)
Definition format_value (v : json) : result string :=
  match v with
  | JNull => Ok "None"
  | JBool true => Ok "True"
  | JBool false => Ok "False"
  | JNum n => Ok (string_of_Z n)
  | JStr s => py_str s
  | JArr _ | JObj _ => Ok (container_repr v)
  end.

(** [template.format(name=value, ...)] for templates whose replacement fields are
    plain names.  [field] is the name being read, when inside braces. *)
Fixpoint format_from (template : string) (field : option string)
    (kwargs : list (string * json)) : result string :=
  match template, field with
  | EmptyString, None => Ok ""
  | EmptyString, Some _ => Raise ValueError
  | String c rest, None =>
      if Ascii.eqb c "{" then format_from rest (Some "") kwargs
      else if Ascii.eqb c "}" then Raise ValueError
      else Res.bind (format_from rest None kwargs)
                    (fun s => Ok (String c s))
  | String c rest, Some name =>
      if Ascii.eqb c "}" then
        match dict_get kwargs name with
        | None => Raise KeyError
        | Some v =>
            Res.bind (format_value v) (fun x =>
            Res.bind (format_from rest None kwargs) (fun s =>
            Ok (x ++ s)%string))
        end
      else format_from rest (Some (name ++ String c "")%string) kwargs
  end.

Definition py_format (template : string) (kwargs : list (string * json))
  : result string :=
  format_from template None kwargs.

(** [GET /ping]. *)
Definition ping : string := "pong".

Definition gists_for_user (username : json) : Py.t json :=
  gists_url <~ py_format "https://api.github.com/users/{username}/gists"
                         [("username", username)] ;;
  response <- requests_get gists_url ;;
  Py.lift (response_json response).

Definition retrieve_content (gist_id : json) : Py.t json :=
  id_url <~ py_format "https://api.github.com/gists/{id}" [("id", gist_id)] ;;
  response <- requests_get id_url ;;
  data <~ response_json response ;;
  get_data <~ py_getitem data "files" ;;
  keys <~ py_keys get_data ;;
  key0 <~ py_first keys ;;
  gist_file <~ py_str key0 ;;
  g_file <~ py_getitem get_data gist_file ;;
  content <~ py_getitem g_file "content" ;;
  Py.ret content.

(** [re.compile(pattern)]: the argument must be text. *)
Definition py_re_compile (pattern : json) : result Re.regex :=
  match pattern with
  | JStr s => re_compile s
  | _ => Raise TypeError
  end.

(** [p.match(content)]: the argument must be text. *)
Definition py_pattern_match (p : Re.regex) (content : json) : result bool :=
  match content with
  | JStr s => Ok (Re.pattern_match p s)
  | _ => Raise TypeError
  end.

Definition regex_match (content pattern : json) : result bool :=
  Res.bind (py_re_compile pattern) (fun p =>
  Res.bind (py_pattern_match p content) (fun m =>
  if m then Ok true else Ok false)).

Definition return_url : string := "https://gist.github.com/{username}/{id}".

(** The [try] block of the loop of [search]: the new value of [matched]. *)
Definition search_try (username pattern gist : json) (matched : list string)
  : Py.t (list string) :=
  gist_id <~ py_getitem gist "id" ;;
  content <- retrieve_content gist_id ;;
  found <~ regex_match content pattern ;;
  if found then
    url <~ py_format return_url [("username", username); ("id", gist_id)] ;;
    Py.ret (matched ++ [url])
  else Py.ret matched.

(** One turn of the loop of [search] on the variables [status] and
    [matched]. *)
Definition search_body (username pattern gist : json)
    (st : string * list string) : Py.t (string * list string) :=
  let '(status, matched) := st in
  Py.try_except
    (matched' <- search_try username pattern gist matched ;;
     Py.ret (status, matched'))
    (Py.ret ("fail", matched)).

(** [POST /api/v1/search]; [post_data] is what [request.get_json()]
    returned and the result is the dict handed to [jsonify]. *)
Definition search (post_data : json) : Py.t json :=
  username <~ py_getitem post_data "username" ;;
  pattern <~ py_getitem post_data "pattern" ;;
  gists <- gists_for_user username ;;
  items <~ py_iter gists ;;
  st <- Py.for_each items (search_body username pattern) ("success", []) ;;
  let '(status, matched) := st in
  let result := [] in
  let result := dict_set result "status" (JStr status) in
  let result := dict_set result "username" username in
  let result := dict_set result "pattern" pattern in
  let result := dict_set result "matches" (JArr (map JStr matched)) in
  Py.ret (JObj result).

End Gistapi.

(** ** Vocabulary of the properties *)

Section Vocabulary.
Context {R : Runtime}.

(** The dict [search] hands to [jsonify]. *)
Definition search_result (status : string) (username pattern : json)
    (matched : list string) : json :=
  JObj [("status", JStr status); ("username", username);
        ("pattern", pattern); ("matches", JArr (map JStr matched))].

(** The URL of a gist, from the rendered user name and gist id. *)
Definition gist_url (username id : string) : string :=
  ("https://gist.github.com/" ++ username ++ "/" ++ id)%string.

(** Lines 62 to 65 of [retrieve_content]: the content of the first file of
    the decoded response. *)
Definition first_file_content (data : json) : result json :=
  Res.bind (py_getitem data "files") (fun get_data =>
  Res.bind (py_keys get_data) (fun keys =>
  Res.bind (py_first keys) (fun key0 =>
  Res.bind (py_str key0) (fun gist_file =>
  Res.bind (py_getitem get_data gist_file) (fun g_file =>
  py_getitem g_file "content"))))).

(** The turns of the loop of [search] seen one by one: what the [try] block
    of each gist gives when started on an empty list, in the world its turn
    starts in, and the world after the last turn. *)
Fixpoint outcomes (username pattern : json) (items : list json) (w : World)
  : list (result (list string)) * World :=
  match items with
  | [] => ([], w)
  | gist :: rest =>
      let '(r, w1) := search_try username pattern gist [] w in
      let '(rs, w2) := outcomes username pattern rest w1 in
      (r :: rs, w2)
  end.

(** The URLs the turns appended, in order. *)
Fixpoint collect (rs : list (result (list string))) : list string :=
  match rs with
  | [] => []
  | Ok urls :: rest => urls ++ collect rest
  | Raise _ :: rest => collect rest
  end.

Definition raised {A} (r : result A) : bool :=
  match r with
  | Ok _ => false
  | Raise _ => true
  end.

(** The status after the turns [rs], starting from [status]. *)
Definition status_after (status : string) (rs : list (result (list string)))
  : string :=
  if existsb raised rs then "fail" else status.

(** The turn of [gist], started in [w], raises [e] and leaves the world
    [w']: the gist has no id, its content cannot be retrieved, or the match
    cannot be evaluated. *)
Definition processing_raises (pattern gist : json) (w : World) (e : exn)
    (w' : World) : Prop :=
  (py_getitem gist "id" = Raise e /\ w' = w) \/
  exists gist_id,
    py_getitem gist "id" = Ok gist_id /\
    (retrieve_content gist_id w = (Raise e, w') \/
     exists content,
       retrieve_content gist_id w = (Ok content, w') /\
       regex_match content pattern = Raise e).

(** The content of [gist], retrieved in [w] leaving [w'], is tested against
    [pattern] and the answer is [found]. *)
Definition gist_tested (pattern gist : json) (w : World) (found : bool)
    (w' : World) : Prop :=
  exists gist_id content,
    py_getitem gist "id" = Ok gist_id /\
    retrieve_content gist_id w = (Ok content, w') /\
    regex_match content pattern = Ok found.

(** [url] is the URL of [gist] for the user [username]. *)
Definition url_of (username gist : json) (url : string) : Prop :=
  exists gist_id u i,
    py_getitem gist "id" = Ok gist_id /\
    format_value username = Ok u /\
    format_value gist_id = Ok i /\
    url = gist_url u i.

(** Every gist of [items] is fetched and none matches [pattern]; the turns
    start in [w] and end in [w']. *)
Inductive none_match (pattern : json) : list json -> World -> World -> Prop :=
| NoneNil w : none_match pattern [] w w
| NoneCons gist rest gist_id content w w1 w2 :
    py_getitem gist "id" = Ok gist_id ->
    retrieve_content gist_id w = (Ok content, w1) ->
    regex_match content pattern = Ok false ->
    none_match pattern rest w1 w2 ->
    none_match pattern (gist :: rest) w w2.

(** The three causes of failure the description of [retrieve_content]
    lists, for the gist [gist_id] fetched in the world [w]: the network call
    errors, [files] is empty, or the selected entry has no [content]. *)
Definition listed_failure (gist_id : json) (w : World) : Prop :=
  match py_format "https://api.github.com/gists/{id}" [("id", gist_id)] with
  | Raise _ => False
  | Ok id_url =>
      match requests_get id_url w with
      | (Raise _, _) => True
      | (Ok r, _) =>
          match body r with
          | None => True
          | Some data =>
              match py_getitem data "files" with
              | Ok (JObj []) => True
              | Ok (JObj ((_, entry) :: _)) =>
                  match py_getitem entry "content" with
                  | Ok _ => False
                  | Raise _ => True
                  end
              | _ => False
              end
          end
      end
  end.

End Vocabulary.

(** ** A runtime to run the module on

    A small stand-in for the GitHub API and for the parser of [re], used to
    evaluate the module on concrete requests.  The world is the log of the
    URLs requested so far; the parser covers literals, [.], [^], [$], [|],
    groups, the repeats [*], [+], [?] and escaped punctuation, and rejects
    every other pattern. *)

Module Demo.

Import Re.

Definition is_repeat (c : ascii) : bool :=
  Ascii.eqb c "*" || Ascii.eqb c "+" || Ascii.eqb c "?".

Definition is_special (c : ascii) : bool :=
  is_repeat c || Ascii.eqb c "[" || Ascii.eqb c "]" || Ascii.eqb c "{" ||
  Ascii.eqb c "}" || Ascii.eqb c "\".

Definition is_alnum (c : ascii) : bool :=
  let n := nat_of_ascii c in
  ((48 <=? n) && (n <=? 57) || (65 <=? n) && (n <=? 90) ||
   (97 <=? n) && (n <=? 122))%nat.

(** A repeat after an item: [*], [+] or [?], lazy or not; a second repeat is
    an error, and so is a repeat of a bare [^] or [$]. *)
Definition parse_repeat (anchor : bool) (r : regex) (s : list ascii)
  : option (regex * list ascii) :=
  match s with
  | c :: s1 =>
      if is_repeat c then
        if anchor then None else
        let r' := if Ascii.eqb c "*" then Star r
                  else if Ascii.eqb c "+" then Plus r else Opt r in
        let s2 := match s1 with
                  | q :: s2 => if Ascii.eqb q "?" then s2 else s1
                  | [] => s1
                  end in
        match s2 with
        | d :: _ => if is_repeat d then None else Some (r', s2)
        | [] => Some (r', s2)
        end
      else Some (r, s)
  | [] => Some (r, s)
  end.

Fixpoint parse_alt (fuel : nat) (s : list ascii) : option (regex * list ascii) :=
  match fuel with
  | O => None
  | S f =>
      match parse_seq f s with
      | Some (r1, c :: s1) =>
          if Ascii.eqb c "|" then
            match parse_alt f s1 with
            | Some (r2, s2) => Some (Alt r1 r2, s2)
            | None => None
            end
          else Some (r1, c :: s1)
      | other => other
      end
  end
with parse_seq (fuel : nat) (s : list ascii) : option (regex * list ascii) :=
  match fuel with
  | O => None
  | S f =>
      match s with
      | [] => Some (Eps, [])
      | c :: _ =>
          if Ascii.eqb c "|" || Ascii.eqb c ")" then Some (Eps, s)
          else
            match parse_item f s with
            | Some (r1, s1) =>
                match parse_seq f s1 with
                | Some (r2, s2) => Some (Cat r1 r2, s2)
                | None => None
                end
            | None => None
            end
      end
  end
with parse_item (fuel : nat) (s : list ascii) : option (regex * list ascii) :=
  match fuel with
  | O => None
  | S f =>
      match s with
      | [] => None
      | c :: s1 =>
          if Ascii.eqb c "(" then
            match parse_alt f s1 with
            | Some (r, d :: s2) =>
                if Ascii.eqb d ")" then parse_repeat false r s2 else None
            | _ => None
            end
          else if Ascii.eqb c "\" then
            match s1 with
            | d :: s2 => if is_alnum d then None else parse_repeat false (Lit d) s2
            | [] => None
            end
          else if Ascii.eqb c "." then parse_repeat false Dot s1
          else if Ascii.eqb c "^" then parse_repeat true Bol s1
          else if Ascii.eqb c "$" then parse_repeat true Eol s1
          else if is_special c then None
          else parse_repeat false (Lit c) s1
      end
  end.

Definition compile (pattern : string) : result regex :=
  let s := list_ascii_of_string pattern in
  match parse_alt (3 * List.length s + 3) s with
  | Some (r, []) => Ok r
  | _ => Raise ReError
  end.

(** The API: what each URL answers. *)

Definition summary (id : string) : json := JObj [("id", JStr id)].

Definition gist (files : list (string * json)) : result response :=
  Ok (Response (Some (JObj [("files", JObj files)]))).

Definition file (content : string) : json := JObj [("content", JStr content)].

Definition e_acute : string := String (ascii_of_nat 233) "".

Definition routes : list (string * result response) :=
  [ ("https://api.github.com/users/alice/gists",
     Ok (Response (Some (JArr [summary "abc123"; summary "down";
                               summary "xyz"; summary "def456"]))));
    ("https://api.github.com/users/bob/gists",
     Ok (Response (Some (JArr [summary "xyz"; summary "readme"]))));
    ("https://api.github.com/users/nobody/gists",
     Ok (Response (Some (JArr []))));
    ("https://api.github.com/users/limited/gists",
     Ok (Response (Some (JObj [("message", JStr "API rate limit exceeded");
                               ("documentation_url", JStr "https://developer.github.com/v3")]))));
    ("https://api.github.com/users/blank/gists",
     Ok (Response (Some (JObj []))));
    ("https://api.github.com/users/offline/gists", Raise ConnectionError);
    ("https://api.github.com/gists/abc123",
     gist [("hello.txt", file "hello world")]);
    ("https://api.github.com/gists/down", Raise ConnectionError);
    ("https://api.github.com/gists/xyz",
     gist [("x.txt", file "xhello")]);
    ("https://api.github.com/gists/def456",
     gist [("a.txt", file "hello again"); ("b.txt", file "other")]);
    ("https://api.github.com/gists/readme",
     gist [("README", file "read me")]);
    ("https://api.github.com/gists/empty", gist []);
    ("https://api.github.com/gists/bare", gist [("a.txt", JObj [])]);
    ("https://api.github.com/gists/cafe",
     gist [((e_acute ++ ".txt")%string, file "hello")]) ].

Fixpoint route (table : list (string * result response)) (url : string)
  : result response :=
  match table with
  | [] => Ok (Response (Some (JObj [("message", JStr "Not Found")])))
  | (u, r) :: rest => if String.eqb u url then r else route rest url
  end.

Definition get (url : string) (log : list string)
  : result response * list string :=
  (route routes url, log ++ [url]).

Definition repr (v : json) : string := "<container>".

#[export] Instance runtime : Runtime :=
  {| World := list string;
     requests_get := get;
     re_compile := compile;
     container_repr := repr |}.

(** The URLs the module requests. *)
Definition listing_url (user : string) : string :=
  ("https://api.github.com/users/" ++ user ++ "/gists")%string.

Definition fetch_url (id : string) : string :=
  ("https://api.github.com/gists/" ++ id)%string.

Definition request (username pattern : string) : json :=
  JObj [("username", JStr username); ("pattern", JStr pattern)].

End Demo.

(** ** Watching the network

    [logged R] is the runtime [R] with a log beside its world: every call of
    [requests.get] adds the URL it asks for at the end of the log, whatever
    the answer is. *)

Definition logged (R : Runtime) : Runtime :=
  {| World := (@World R * list string)%type;
     requests_get := fun url wl =>
       let '(r, w') := @requests_get R url (fst wl) in
       (r, (w', snd wl ++ [url]));
     re_compile := @re_compile R;
     container_repr := @container_repr R |}.

(** What a logged run leaves out of its result to give the run it logs. *)
Definition unlogged {R : Runtime} {A}
    (x : result A * (@World R * list string)) : result A * @World R :=
  (fst x, fst (snd x)).

Section Requests.
Context {R : Runtime}.

(** The URL [retrieve_content] asks for a gist of the listing, when the gist
    has an id and the id renders into the URL. *)
Definition fetch_urls_of (gist : json) : list string :=
  match py_getitem gist "id" with
  | Ok gist_id =>
      match format_value gist_id with
      | Ok i => [("https://api.github.com/gists/" ++ i)%string]
      | Raise _ => []
      end
  | Raise _ => []
  end.

Definition fetch_urls (items : list json) : list string :=
  flat_map fetch_urls_of items.

End Requests.

(** A second stand-in for the API: two gists with the same first file, and
    listings that are not arrays. *)

Module Lab.

Definition routes : list (string * result response) :=
  [ ("https://api.github.com/gists/one",
     Demo.gist [("a.txt", Demo.file "same"); ("b.txt", Demo.file "hello")]);
    ("https://api.github.com/gists/two",
     Demo.gist [("a.txt", Demo.file "same")]);
    ("https://api.github.com/users/zero/gists",
     Ok (Response (Some (JNum 0))));
    ("https://api.github.com/users/text/gists",
     Ok (Response (Some (JStr "oops")))) ].

Definition get (url : string) (log : list string)
  : result response * list string :=
  (Demo.route routes url, log ++ [url]).

Definition runtime : Runtime :=
  {| World := list string;
     requests_get := get;
     re_compile := Demo.compile;
     container_repr := Demo.repr |}.

End Lab.

(** * Properties *)

(** ** The matcher decides the semantics of expressions *)

Module ReFacts.

Import Re.

Lemma app_nil_inv {A} (u v : list A) : u ++ v = [] -> u = [] /\ v = [].
Proof. destruct u; simpl; intros H; [split; auto | discriminate]. Qed.

Lemma nullable_sound r : forall b s, nullable b s r = true -> matches r b [] s.
Proof.
  induction r; simpl; intros b s H; try discriminate.
  - constructor.
  - subst b. constructor.
  - constructor. exact H.
  - apply andb_true_iff in H. destruct H as [H1 H2].
    change (@nil ascii) with (@nil ascii ++ []).
    constructor.
    + simpl. auto.
    + simpl. rewrite andb_true_r. auto.
  - apply orb_true_iff in H. destruct H; [apply MAltL | apply MAltR]; auto.
  - constructor.
Qed.

Lemma nullable_complete r b w s :
  matches r b w s -> w = [] -> nullable b s r = true.
Proof.
  induction 1; simpl; intros E; auto; try discriminate.
  - apply app_nil_inv in E. destruct E; subst. simpl in *.
    rewrite andb_true_r in IHmatches2.
    rewrite IHmatches1, IHmatches2; auto.
  - rewrite IHmatches; auto.
  - rewrite IHmatches; auto using orb_true_r.
Qed.

Lemma nullable_spec r b s : nullable b s r = true <-> matches r b [] s.
Proof.
  split; [apply nullable_sound | intros H; eapply nullable_complete; eauto].
Qed.

Lemma deriv_complete r b w0 rest :
  matches r b w0 rest ->
  forall c w, w0 = c :: w -> matches (deriv b (w0 ++ rest) c r) false w rest.
Proof.
  induction 1; simpl; intros c0 w0 E; try discriminate.
  - inversion E; subst. rewrite H. constructor.
  - destruct w1 as [|a w1']; simpl in *.
    + subst w2. rewrite andb_true_r in *.
      apply MAltR.
      rewrite (nullable_complete H eq_refl).
      apply IHmatches2; reflexivity.
    + inversion E; subst. rewrite andb_false_r in H0.
      apply MAltL. rewrite <- app_assoc. constructor.
      * apply IHmatches1; reflexivity.
      * exact H0.
  - apply MAltL. auto.
  - apply MAltR. auto.
  - destruct w1 as [|a w1']; simpl in *.
    + subst w2. rewrite andb_true_r in *. apply IHmatches2; reflexivity.
    + inversion E; subst. rewrite andb_false_r in H0.
      rewrite <- app_assoc. constructor.
      * apply IHmatches1; reflexivity.
      * exact H0.
Qed.

Ltac invert_matches :=
  match goal with
  | H : matches Void _ _ _ |- _ => inversion H
  | H : matches Eps _ _ _ |- _ => inversion H; subst; clear H
  | H : matches (Cat _ _) _ _ _ |- _ => inversion H; subst; clear H
  | H : matches (Alt _ _) _ _ _ |- _ => inversion H; subst; clear H
  end.

Lemma deriv_sound r : forall b c w rest,
  matches (deriv b (c :: w ++ rest) c r) false w rest ->
  matches r b (c :: w) rest.
Proof.
  induction r; simpl; intros b c w rest H; try solve [invert_matches].
  - destruct (p c) eqn:E; invert_matches. constructor. exact E.
  - invert_matches.
    + invert_matches.
      match goal with
      | H1 : matches (deriv _ _ _ r1) _ ?u _, H2 : matches r2 _ ?v _ |- _ =>
          change (c :: u ++ v) with ((c :: u) ++ v);
          rewrite <- app_assoc in H1;
          apply MCat; [apply IHr1; exact H1 | simpl; rewrite andb_false_r; exact H2]
      end.
    + destruct (nullable b (c :: w ++ rest) r1) eqn:E; [|invert_matches].
      change (c :: w) with ([] ++ c :: w).
      constructor.
      * apply nullable_sound. exact E.
      * simpl. rewrite andb_true_r. apply IHr2. assumption.
  - invert_matches; [apply MAltL | apply MAltR]; auto.
  - invert_matches.
    match goal with
    | H1 : matches (deriv _ _ _ r) _ ?u _, H2 : matches (Star r) _ ?v _ |- _ =>
        change (c :: u ++ v) with ((c :: u) ++ v);
        rewrite <- app_assoc in H1;
        apply MStarCons; [apply IHr; exact H1 | simpl; rewrite andb_false_r; exact H2]
    end.
Qed.

Lemma match_here_spec s : forall r b,
  match_here s r b = true <->
  exists w rest, s = w ++ rest /\ matches r b w rest.
Proof.
  induction s as [|c s IH]; intros r b; simpl.
  - rewrite orb_false_r, nullable_spec. split.
    + intros H. exists [], []. auto.
    + intros (w & rest & E & H). symmetry in E.
      apply app_nil_inv in E. destruct E; subst. exact H.
  - rewrite orb_true_iff, nullable_spec, IH. split.
    + intros [H | (w & rest & E & H)].
      * exists [], (c :: s). auto.
      * exists (c :: w), rest. subst s. split; auto.
        apply deriv_sound. exact H.
    + intros (w & rest & E & H). destruct w as [|a w]; simpl in E.
      * subst rest. left. exact H.
      * inversion E; subst. right. exists w, rest. split; auto.
        exact (deriv_complete H eq_refl).
Qed.

Lemma match_here_at s r :
  match_here s r true = true <-> match_at r s 0.
Proof.
  rewrite match_here_spec. unfold match_at. split.
  - intros (w & rest & E & H). exists [], w, rest. auto.
  - intros (pre & w & rest & E & L & H).
    destruct pre; [|discriminate]. exists w, rest. auto.
Qed.

Lemma search_here_spec s : forall r b,
  search_here s r b = true <->
  exists pre w rest,
    s = pre ++ w ++ rest /\ matches r (b && is_nil pre) w rest.
Proof.
  induction s as [|c s IH]; intros r b; cbn [search_here].
  - rewrite orb_false_r, match_here_spec. split.
    + intros (w & rest & E & H). exists [], w, rest.
      rewrite andb_true_r. auto.
    + intros (pre & w & rest & E & H). symmetry in E.
      apply app_nil_inv in E. destruct E as [-> E]. simpl in H.
      rewrite andb_true_r in H. exists w, rest. auto.
  - rewrite orb_true_iff, match_here_spec, IH. split.
    + intros [(w & rest & E & H) | (pre & w & rest & E & H)].
      * exists [], w, rest. rewrite andb_true_r. auto.
      * exists (c :: pre), w, rest. simpl. rewrite andb_false_r.
        subst s. auto.
    + intros (pre & w & rest & E & H). destruct pre as [|a pre]; simpl in *.
      * rewrite andb_true_r in H. left. exists w, rest. auto.
      * rewrite andb_false_r in H. inversion E; subst. right.
        exists pre, w, rest. auto.
Qed.

Lemma pattern_search_spec r text :
  pattern_search r text = true <->
  exists i, match_at r (list_ascii_of_string text) i.
Proof.
  unfold pattern_search. rewrite search_here_spec. unfold match_at. split.
  - intros (pre & w & rest & E & H). exists (List.length pre), pre, w, rest.
    auto.
  - intros (i & pre & w & rest & E & L & H). exists pre, w, rest. auto.
Qed.

End ReFacts.

(** ** The templates of the module *)

Lemma append_empty_r (s : string) : (s ++ "")%string = s.
Proof. induction s as [|c s IH]; simpl; [|rewrite IH]; reflexivity. Qed.

Section Templates.
Context {R : Runtime}.

Lemma format_gists_url username :
  py_format "https://api.github.com/users/{username}/gists"
            [("username", username)]
  = Res.bind (format_value username) (fun u =>
      Ok ("https://api.github.com/users/" ++ u ++ "/gists")%string).
Proof.
  unfold py_format. cbn. destruct (format_value username); reflexivity.
Qed.

Lemma format_id_url gist_id :
  py_format "https://api.github.com/gists/{id}" [("id", gist_id)]
  = Res.bind (format_value gist_id) (fun i =>
      Ok ("https://api.github.com/gists/" ++ i)%string).
Proof.
  unfold py_format. cbn. destruct (format_value gist_id) as [i|]; cbn.
  - rewrite append_empty_r. reflexivity.
  - reflexivity.
Qed.

Lemma format_return_url username gist_id :
  py_format return_url [("username", username); ("id", gist_id)]
  = Res.bind (format_value username) (fun u =>
    Res.bind (format_value gist_id) (fun i => Ok (gist_url u i))).
Proof.
  unfold py_format, return_url, gist_url. cbn.
  destruct (format_value username) as [u|]; cbn; [|reflexivity].
  destruct (format_value gist_id) as [i|]; cbn; [|reflexivity].
  rewrite append_empty_r. reflexivity.
Qed.

End Templates.

(** ** The functions of the module, step by step *)

Section Steps.
Context {R : Runtime}.

Lemma gists_for_user_eq username w :
  gists_for_user username w =
  match format_value username with
  | Raise e => (Raise e, w)
  | Ok u =>
      match requests_get ("https://api.github.com/users/" ++ u ++ "/gists")%string w with
      | (Ok r, w1) => (response_json r, w1)
      | (Raise e, w1) => (Raise e, w1)
      end
  end.
Proof.
  unfold gists_for_user, Py.bind, Py.lift. rewrite format_gists_url.
  destruct (format_value username); reflexivity.
Qed.

Lemma retrieve_content_eq gist_id w :
  retrieve_content gist_id w =
  match format_value gist_id with
  | Raise e => (Raise e, w)
  | Ok i =>
      match requests_get ("https://api.github.com/gists/" ++ i)%string w with
      | (Ok r, w1) => (Res.bind (response_json r) first_file_content, w1)
      | (Raise e, w1) => (Raise e, w1)
      end
  end.
Proof.
  unfold retrieve_content, first_file_content, Py.bind, Py.lift, Py.ret.
  rewrite format_id_url.
  destruct (format_value gist_id) as [i|]; cbn; [|reflexivity].
  destruct (requests_get _ w) as [[r|e] w1]; [|reflexivity].
  destruct (response_json r) as [data|]; cbn; [|reflexivity].
  destruct (py_getitem data "files") as [get_data|]; cbn; [|reflexivity].
  destruct (py_keys get_data) as [keys|]; cbn; [|reflexivity].
  destruct (py_first keys) as [key0|]; cbn; [|reflexivity].
  destruct (py_str key0) as [gist_file|]; cbn; [|reflexivity].
  destruct (py_getitem get_data gist_file) as [g_file|]; cbn; [|reflexivity].
  destruct (py_getitem g_file "content"); reflexivity.
Qed.

Lemma retrieve_content_formats gist_id w content w1 :
  retrieve_content gist_id w = (Ok content, w1) ->
  exists i, format_value gist_id = Ok i.
Proof.
  rewrite retrieve_content_eq.
  destruct (format_value gist_id) as [i|]; [eauto | discriminate].
Qed.

Lemma gists_for_user_formats username w gists w1 :
  gists_for_user username w = (Ok gists, w1) ->
  exists u, format_value username = Ok u.
Proof.
  rewrite gists_for_user_eq.
  destruct (format_value username) as [u|]; [eauto | discriminate].
Qed.

Lemma format_value_text (s u : string) :
  format_value (JStr s) = Ok u -> u = s.
Proof.
  cbn. unfold py_str. destruct (is_ascii s); intros H; inversion H.
  reflexivity.
Qed.

Lemma search_try_eq username pattern gist matched w :
  search_try username pattern gist matched w =
  match py_getitem gist "id" with
  | Raise e => (Raise e, w)
  | Ok gist_id =>
      match retrieve_content gist_id w with
      | (Raise e, w1) => (Raise e, w1)
      | (Ok content, w1) =>
          match regex_match content pattern with
          | Raise e => (Raise e, w1)
          | Ok false => (Ok matched, w1)
          | Ok true =>
              match py_format return_url
                      [("username", username); ("id", gist_id)] with
              | Ok url => (Ok (matched ++ [url]), w1)
              | Raise e => (Raise e, w1)
              end
          end
      end
  end.
Proof.
  unfold search_try, Py.bind, Py.lift, Py.ret.
  destruct (py_getitem gist "id") as [gist_id|]; [|reflexivity].
  destruct (retrieve_content gist_id w) as [[content|] w1]; [|reflexivity].
  destruct (regex_match content pattern) as [[|]|]; reflexivity.
Qed.

(** The [try] block only appends to [matched]. *)
Lemma search_try_app username pattern gist matched w :
  search_try username pattern gist matched w =
  match search_try username pattern gist [] w with
  | (Ok urls, w1) => (Ok (matched ++ urls), w1)
  | (Raise e, w1) => (Raise e, w1)
  end.
Proof.
  rewrite !search_try_eq.
  destruct (py_getitem gist "id") as [gist_id|]; [|reflexivity].
  destruct (retrieve_content gist_id w) as [[content|] w1]; [|reflexivity].
  destruct (regex_match content pattern) as [[|]|]; try reflexivity.
  - destruct (py_format _ _); reflexivity.
  - rewrite app_nil_r. reflexivity.
Qed.

Lemma search_body_eq username pattern gist status matched w :
  search_body username pattern gist (status, matched) w =
  match search_try username pattern gist [] w with
  | (Ok urls, w1) => (Ok (status, matched ++ urls), w1)
  | (Raise _, w1) => (Ok ("fail", matched), w1)
  end.
Proof.
  unfold search_body, Py.try_except, Py.bind, Py.ret.
  rewrite search_try_app.
  destruct (search_try username pattern gist [] w) as [[urls|] w1];
    reflexivity.
Qed.

(** What a turn can append: nothing, or the URL of its gist. *)
Lemma search_try_urls username pattern gist w urls w1 :
  search_try username pattern gist [] w = (Ok urls, w1) ->
  exists gist_id content,
    py_getitem gist "id" = Ok gist_id /\
    retrieve_content gist_id w = (Ok content, w1) /\
    ((regex_match content pattern = Ok false /\ urls = []) \/
     (regex_match content pattern = Ok true /\
      exists u i, format_value username = Ok u /\
                  format_value gist_id = Ok i /\ urls = [gist_url u i])).
Proof.
  rewrite search_try_eq.
  destruct (py_getitem gist "id") as [gist_id|]; [|discriminate].
  destruct (retrieve_content gist_id w) as [[content|] w2] eqn:E;
    [|discriminate].
  destruct (regex_match content pattern) as [[|]|] eqn:M; try discriminate.
  - rewrite format_return_url.
    destruct (format_value username) as [u|] eqn:Fu; cbn [Res.bind];
      [|discriminate].
    destruct (format_value gist_id) as [i|] eqn:Fi; cbn [Res.bind];
      [|discriminate].
    intros H. inversion H; subst.
    exists gist_id, content. split; [reflexivity|]. split; [exact E|].
    right. split; [exact M|]. exists u, i. auto.
  - intros H. inversion H; subst.
    exists gist_id, content. split; [reflexivity|]. split; [exact E|].
    left. split; [exact M | reflexivity].
Qed.

(** The loop of [search] never raises; it appends the URLs of its turns and
    the status is ["fail"] as soon as one of them raised. *)
Lemma search_loop username pattern items : forall status matched w,
  Py.for_each items (search_body username pattern) (status, matched) w =
  let '(rs, w1) := outcomes username pattern items w in
  (Ok (status_after status rs, matched ++ collect rs), w1).
Proof.
  induction items as [|gist rest IH]; intros status matched w.
  - cbn. rewrite app_nil_r. reflexivity.
  - cbn [Py.for_each outcomes]. unfold Py.bind at 1.
    rewrite search_body_eq.
    destruct (search_try username pattern gist [] w) as [[urls|e] w1].
    + rewrite IH.
      destruct (outcomes username pattern rest w1) as [rs w2].
      cbn. rewrite app_assoc. reflexivity.
    + rewrite IH.
      destruct (outcomes username pattern rest w1) as [rs w2].
      unfold status_after. cbn.
      destruct (existsb raised rs); reflexivity.
Qed.

Lemma outcomes_app username pattern pre : forall post w,
  outcomes username pattern (pre ++ post) w =
  let '(rs1, w1) := outcomes username pattern pre w in
  let '(rs2, w2) := outcomes username pattern post w1 in
  (rs1 ++ rs2, w2).
Proof.
  induction pre as [|g pre IH]; intros post w; cbn [outcomes app].
  - destruct (outcomes username pattern post w); reflexivity.
  - destruct (search_try username pattern g [] w) as [r w1].
    rewrite IH.
    destruct (outcomes username pattern pre w1) as [rs1 w2].
    destruct (outcomes username pattern post w2) as [rs2 w3].
    reflexivity.
Qed.

Lemma collect_app rs1 rs2 : collect (rs1 ++ rs2) = collect rs1 ++ collect rs2.
Proof.
  induction rs1 as [|[urls|e] rs1 IH]; cbn; auto.
  rewrite IH, app_assoc. reflexivity.
Qed.

Lemma outcomes_length username pattern items : forall w rs w1,
  outcomes username pattern items w = (rs, w1) ->
  List.length rs = List.length items.
Proof.
  induction items as [|g items IH]; cbn [outcomes]; intros w rs w1 H.
  - inversion H. reflexivity.
  - destruct (search_try username pattern g [] w) as [r w2].
    destruct (outcomes username pattern items w2) as [rs' w3] eqn:E.
    inversion H; subst. cbn. f_equal. eapply IH. exact E.
Qed.

(** [search], once the request is read and the listing is there. *)
Lemma search_eq post_data username pattern w gists w0 items :
  py_getitem post_data "username" = Ok username ->
  py_getitem post_data "pattern" = Ok pattern ->
  gists_for_user username w = (Ok gists, w0) ->
  py_iter gists = Ok items ->
  search post_data w =
  let '(rs, w1) := outcomes username pattern items w0 in
  (Ok (search_result (status_after "success" rs) username pattern
                     (collect rs)), w1).
Proof.
  intros Hu Hp Hg Hi. unfold search, Py.bind at 1 2 3 4 5, Py.lift.
  rewrite Hu, Hp, Hg, Hi, search_loop.
  destruct (outcomes username pattern items w0) as [rs w1]. reflexivity.
Qed.

End Steps.

(** ** The turns of the loop *)

Section Turns.
Context {R : Runtime}.

Lemma processing_raises_try username pattern gist w e w' :
  processing_raises pattern gist w e w' ->
  search_try username pattern gist [] w = (Raise e, w').
Proof.
  rewrite search_try_eq.
  intros [[H ->] | (gist_id & H & [F | (content & F & M)])]; rewrite H.
  - reflexivity.
  - rewrite F. reflexivity.
  - rewrite F, M. reflexivity.
Qed.

Lemma gist_unmatched_try username pattern gist w w' :
  gist_tested pattern gist w false w' ->
  search_try username pattern gist [] w = (Ok [], w').
Proof.
  intros (gist_id & content & H & F & M).
  rewrite search_try_eq, H, F, M. reflexivity.
Qed.

Lemma gist_matched_try username pattern gist w w' u :
  format_value username = Ok u ->
  gist_tested pattern gist w true w' ->
  exists url,
    url_of username gist url /\
    search_try username pattern gist [] w = (Ok [url], w').
Proof.
  intros Fu (gist_id & content & H & F & M).
  destruct (retrieve_content_formats _ _ F) as [i Fi].
  exists (gist_url u i). split.
  - exists gist_id, u, i. auto.
  - rewrite search_try_eq, H, F, M, format_return_url, Fu, Fi. reflexivity.
Qed.

Lemma outcomes_split username pattern pre gist post w rs1 w1 r w2 rs2 w3 :
  outcomes username pattern pre w = (rs1, w1) ->
  search_try username pattern gist [] w1 = (r, w2) ->
  outcomes username pattern post w2 = (rs2, w3) ->
  outcomes username pattern (pre ++ gist :: post) w = (rs1 ++ r :: rs2, w3).
Proof.
  intros H1 H2 H3. rewrite outcomes_app, H1. cbn [outcomes].
  rewrite H2, H3. reflexivity.
Qed.

Lemma status_after_raise status rs1 e rs2 :
  status_after status (rs1 ++ Raise e :: rs2) = "fail".
Proof.
  unfold status_after. rewrite existsb_app. cbn.
  rewrite orb_true_r. reflexivity.
Qed.

Lemma status_after_cases status rs :
  status_after status rs = status \/ status_after status rs = "fail".
Proof. unfold status_after. destruct (existsb raised rs); auto. Qed.

(** What the turns return, gist by gist. *)
Lemma outcomes_turns username pattern items : forall w rs w1,
  outcomes username pattern items w = (rs, w1) ->
  Forall2 (fun gist r =>
             match r with
             | Raise _ => True
             | Ok urls =>
                 urls = [] \/ exists url, url_of username gist url /\ urls = [url]
             end) items rs.
Proof.
  induction items as [|gist items IH]; cbn [outcomes]; intros w rs w1 H.
  - inversion H. constructor.
  - destruct (search_try username pattern gist [] w) as [r w2] eqn:T.
    destruct (outcomes username pattern items w2) as [rs' w3] eqn:E.
    inversion H; subst. constructor; [|eapply IH; exact E].
    destruct r as [urls|]; [|exact I].
    destruct (search_try_urls _ _ _ _ T)
      as (gist_id & content & Hid & F & [[_ ->] | [_ (u & i & Fu & Fi & ->)]]).
    + left. reflexivity.
    + right. exists (gist_url u i). split; [|reflexivity].
      exists gist_id, u, i. auto.
Qed.

Lemma collect_bound (P : json -> string -> Prop) items rs :
  Forall2 (fun gist r =>
             match r with
             | Raise _ => True
             | Ok urls => urls = [] \/ exists url, P gist url /\ urls = [url]
             end) items rs ->
  List.length (collect rs) <= List.length items /\
  Forall (fun url => exists gist, In gist items /\ P gist url) (collect rs).
Proof.
  induction 1 as [|gist r items rs H H2 [IHl IHf]]; cbn.
  - split; [lia | constructor].
  - assert (W : Forall (fun url => exists g, In g (gist :: items) /\ P g url)
                       (collect rs)).
    { eapply Forall_impl; [|exact IHf].
      intros url (g & Hin & Hp). exists g. split; [right|]; auto. }
    destruct r as [urls|].
    + destruct H as [-> | (url & Hp & ->)]; cbn.
      * split; [lia | exact W].
      * split; [lia|]. constructor; [|exact W].
        exists gist. split; [left|]; auto.
    + split; [lia | exact W].
Qed.

Lemma none_match_outcomes username pattern items w w1 :
  none_match pattern items w w1 ->
  exists rs,
    outcomes username pattern items w = (rs, w1) /\
    existsb raised rs = false /\ collect rs = [].
Proof.
  induction 1 as [w | gist rest gist_id content w w1 w2 Hid F M _ (rs & E & Hr & Hc)].
  - exists []. auto.
  - exists (Ok [] :: rs). cbn [outcomes].
    rewrite (@gist_unmatched_try username pattern gist w w1).
    + rewrite E. cbn. auto.
    + exists gist_id, content. auto.
Qed.

(** Iterating a dict gives its keys, and a key has no item ["id"]. *)
Lemma outcomes_keys username pattern (kvs : list (string * json)) w :
  outcomes username pattern (map (fun kv => JStr (fst kv)) kvs) w =
  (map (fun _ => Raise TypeError) kvs, w).
Proof.
  induction kvs as [|kv kvs IH]; cbn [outcomes map]; [reflexivity|].
  rewrite search_try_eq. cbn [py_getitem]. rewrite IH. reflexivity.
Qed.

Lemma collect_raised {A} e (l : list A) :
  collect (map (fun _ => Raise e) l) = [].
Proof. induction l as [|x l IH]; [reflexivity | exact IH]. Qed.

End Turns.

(** ** The search endpoint *)

Section Search.
Context {R : Runtime}.

Variables (post_data username pattern : json).
Hypothesis Husername : py_getitem post_data "username" = Ok username.
Hypothesis Hpattern : py_getitem post_data "pattern" = Ok pattern.

(** C1.  When the turn of one gist of the listing raises (the gist has no
    id, its content cannot be retrieved, or the pattern cannot be compiled or
    applied), [search] still answers: the status of the response is "fail"
    and its matches are the URLs appended by the turns before the failing
    gist followed by those appended by the turns after it. *)
Theorem search_continues_after_failure
    w gists w0 pre gist post rs1 w1 e w2 rs2 w3 :
  gists_for_user username w = (Ok gists, w0) ->
  py_iter gists = Ok (pre ++ gist :: post) ->
  outcomes username pattern pre w0 = (rs1, w1) ->
  processing_raises pattern gist w1 e w2 ->
  outcomes username pattern post w2 = (rs2, w3) ->
  search post_data w =
  (Ok (search_result "fail" username pattern (collect rs1 ++ collect rs2)),
   w3).
Proof.
  intros Hg Hi H1 Hr H2.
  rewrite (search_eq _ _ Husername Hpattern Hg Hi).
  rewrite (outcomes_split _ _ _ _ _ _ H1
             (processing_raises_try username Hr) H2).
  rewrite status_after_raise, collect_app. reflexivity.
Qed.

(** C4.  When the call that lists the gists of the user raises, [search]
    raises the same exception and returns no response, whereas the loop over
    the gists never raises, whatever happens in its turns. *)
Theorem search_propagates_listing_error w e w0 :
  gists_for_user username w = (Raise e, w0) ->
  search post_data w = (Raise e, w0) /\
  forall items st w1,
    exists st' w2,
      Py.for_each items (search_body username pattern) st w1 = (Ok st', w2).
Proof.
  intros Hg. split.
  - unfold search, Py.bind at 1 2 3, Py.lift.
    rewrite Husername, Hpattern, Hg. reflexivity.
  - intros items [status matched] w1. rewrite search_loop.
    destruct (outcomes username pattern items w1) as [rs w2]. eauto.
Qed.

(** C5.  The matches keep the order of the listing: when the gist [a] comes
    before the gist [b] in the listing and both match, the URL of [a] comes
    before the URL of [b] in the matches of the response, each at the place
    of its gist among the URLs of the other turns. *)
Theorem search_preserves_listing_order
    w gists w0 l1 a l2 b l3 rs1 w1 w2 rs2 w3 w4 rs3 w5 :
  gists_for_user username w = (Ok gists, w0) ->
  py_iter gists = Ok (l1 ++ a :: l2 ++ b :: l3) ->
  outcomes username pattern l1 w0 = (rs1, w1) ->
  gist_tested pattern a w1 true w2 ->
  outcomes username pattern l2 w2 = (rs2, w3) ->
  gist_tested pattern b w3 true w4 ->
  outcomes username pattern l3 w4 = (rs3, w5) ->
  exists status url_a url_b,
    url_of username a url_a /\
    url_of username b url_b /\
    search post_data w =
    (Ok (search_result status username pattern
           (collect rs1 ++ url_a :: collect rs2 ++ url_b :: collect rs3)),
     w5).
Proof.
  intros Hg Hi H1 Ha H2 Hb H3.
  destruct (gists_for_user_formats _ _ Hg) as [u Fu].
  edestruct gist_matched_try as (url_a & Ua & Ta); [exact Fu | exact Ha |].
  edestruct gist_matched_try as (url_b & Ub & Tb); [exact Fu | exact Hb |].
  exists (status_after "success" (rs1 ++ Ok [url_a] :: rs2 ++ Ok [url_b] :: rs3)).
  exists url_a, url_b. split; [exact Ua|]. split; [exact Ub|].
  rewrite (search_eq _ _ Husername Hpattern Hg Hi).
  rewrite (outcomes_split _ _ _ _ _ _ H1 Ta
             (outcomes_split _ _ _ _ _ _ H2 Tb H3)).
  rewrite !collect_app. cbn [collect app].
  rewrite !collect_app. cbn [collect app]. reflexivity.
Qed.

(** C7.  When the listing is empty, and when the content of every gist of the
    listing is retrieved and the pattern matches none of them, the response
    of [search] has the status "success" and no matches. *)
Theorem search_without_match w gists w0 items :
  gists_for_user username w = (Ok gists, w0) ->
  py_iter gists = Ok items ->
  (items = [] ->
   search post_data w = (Ok (search_result "success" username pattern []), w0))
  /\
  (forall w1,
     none_match pattern items w0 w1 ->
     search post_data w = (Ok (search_result "success" username pattern []), w1)).
Proof.
  intros Hg Hi.
  assert (N : forall w1, none_match pattern items w0 w1 ->
     search post_data w = (Ok (search_result "success" username pattern []), w1)).
  { intros w1 H.
    destruct (none_match_outcomes username H) as (rs & E & Hr & Hc).
    rewrite (search_eq _ _ Husername Hpattern Hg Hi), E.
    unfold status_after. rewrite Hr, Hc. reflexivity. }
  split; [|exact N].
  intros ->. apply N. constructor.
Qed.

End Search.

(** C6.  A request body without the field [username] or without the field
    [pattern] makes [search] raise [KeyError] before any request is sent:
    there is no response and the world is left as it was. *)
Theorem search_missing_field {R : Runtime} (fields : list (string * json))
    (w : World) :
  dict_get fields "username" = None \/ dict_get fields "pattern" = None ->
  search (JObj fields) w = (Raise KeyError, w).
Proof.
  intros H. unfold search, Py.bind at 1 2, Py.lift. cbn [py_getitem].
  destruct (dict_get fields "username") as [username|].
  - destruct H as [H | H]; [discriminate|]. rewrite H. reflexivity.
  - reflexivity.
Qed.

Section SearchResponse.
Context {R : Runtime}.

Variables (post_data username pattern : json).
Hypothesis Husername : py_getitem post_data "username" = Ok username.
Hypothesis Hpattern : py_getitem post_data "pattern" = Ok pattern.

(** C8.  The response of [search] is a dict with exactly the keys [status],
    [username], [pattern] and [matches]: the status is "success" or "fail",
    the user name and the pattern are the values of the request, and the
    matches are URLs of gists of the listing.  A gist that matches
    contributes, at its place, exactly the URL
    [https://gist.github.com/{username}/{id}] made of the user name of the
    request and of its id as [format] renders them, a text being rendered as
    itself. *)
Theorem search_response_shape w gists w0 items :
  gists_for_user username w = (Ok gists, w0) ->
  py_iter gists = Ok items ->
  exists status matched w',
    search post_data w =
    (Ok (JObj [("status", JStr status); ("username", username);
               ("pattern", pattern); ("matches", JArr (map JStr matched))]),
     w') /\
    (status = "success" \/ status = "fail") /\
    Forall (fun url => exists gist, In gist items /\ url_of username gist url)
           matched /\
    forall pre gist post rs1 w1 w2,
      items = pre ++ gist :: post ->
      outcomes username pattern pre w0 = (rs1, w1) ->
      gist_tested pattern gist w1 true w2 ->
      exists gist_id u i rs2,
        py_getitem gist "id" = Ok gist_id /\
        format_value username = Ok u /\
        format_value gist_id = Ok i /\
        (forall s, username = JStr s -> u = s) /\
        (forall s, gist_id = JStr s -> i = s) /\
        outcomes username pattern post w2 = (rs2, w') /\
        matched =
        collect rs1 ++
        ("https://gist.github.com/" ++ u ++ "/" ++ i)%string :: collect rs2.
Proof.
  intros Hg Hi.
  destruct (outcomes username pattern items w0) as [rs w'] eqn:E.
  exists (status_after "success" rs), (collect rs), w'.
  split; [|split; [|split]].
  - rewrite (search_eq _ _ Husername Hpattern Hg Hi), E. reflexivity.
  - apply status_after_cases.
  - apply (collect_bound (url_of username) (outcomes_turns _ _ _ _ E)).
  - intros pre gist post rs1 w1 w2 -> H1 Ht.
    destruct (gists_for_user_formats _ _ Hg) as [u Fu].
    edestruct gist_matched_try as (url & Hu & T); [exact Fu | exact Ht |].
    destruct Hu as (gist_id & u' & i & Hid & Fu' & Fi & ->).
    rewrite Fu in Fu'. inversion Fu'; subst u'.
    destruct (outcomes username pattern post w2) as [rs2 w3] eqn:E2.
    rewrite (outcomes_split _ _ _ _ _ _ H1 T E2) in E.
    inversion E; subst.
    exists gist_id, u, i, rs2. rewrite collect_app. cbn [collect app].
    split; [exact Hid|]. split; [exact Fu|]. split; [exact Fi|].
    split; [intros s ->; exact (format_value_text _ Fu)|].
    split; [intros s ->; exact (format_value_text _ Fi)|].
    split; reflexivity.
Qed.

(** C9.  The matches of the response are never more than the gists of the
    listing, each of them is the URL of a gist of the listing, and a gist
    whose turn raised or whose content did not match contributes no URL. *)
Theorem search_matches_bounded w gists w0 items :
  gists_for_user username w = (Ok gists, w0) ->
  py_iter gists = Ok items ->
  exists status matched w',
    search post_data w =
    (Ok (search_result status username pattern matched), w') /\
    List.length matched <= List.length items /\
    Forall (fun url => exists gist, In gist items /\ url_of username gist url)
           matched /\
    forall pre gist post rs1 w1 w2,
      items = pre ++ gist :: post ->
      outcomes username pattern pre w0 = (rs1, w1) ->
      (exists e, processing_raises pattern gist w1 e w2) \/
      gist_tested pattern gist w1 false w2 ->
      exists rs2,
        outcomes username pattern post w2 = (rs2, w') /\
        matched = collect rs1 ++ collect rs2.
Proof.
  intros Hg Hi.
  destruct (outcomes username pattern items w0) as [rs w'] eqn:E.
  exists (status_after "success" rs), (collect rs), w'.
  destruct (collect_bound (url_of username) (outcomes_turns _ _ _ _ E))
    as [Hlen Hall].
  split; [|split; [|split]]; auto.
  - rewrite (search_eq _ _ Husername Hpattern Hg Hi), E. reflexivity.
  - intros pre gist post rs1 w1 w2 -> H1 Hturn.
    destruct (outcomes username pattern post w2) as [rs2 w3] eqn:E2.
    assert (T : exists r, search_try username pattern gist [] w1 = (r, w2) /\
                          collect [r] = []).
    { destruct Hturn as [[e Hr] | Hn].
      - exists (Raise e). split; [|reflexivity].
        apply processing_raises_try. exact Hr.
      - exists (Ok []). split; [|reflexivity].
        apply gist_unmatched_try. exact Hn. }
    destruct T as (r & T & Hc).
    rewrite (outcomes_split _ _ _ _ _ _ H1 T E2) in E.
    inversion E; subst.
    exists rs2. split; [reflexivity|].
    change (r :: rs2) with ([r] ++ rs2).
    rewrite !collect_app, Hc. reflexivity.
Qed.

(** C10, as amended.  When the listing call answers a JSON object, [search]
    raises nothing and fetches no gist.  The loop runs over the keys of the
    object and every turn raises, so the response has no matches and its
    status is "fail" when the object has a key; for the empty object there is
    no turn and the status stays "success". *)
Theorem search_object_listing w fields w0 :
  gists_for_user username w = (Ok (JObj fields), w0) ->
  search post_data w =
  (Ok (search_result (match fields with [] => "success" | _ => "fail" end)
                     username pattern []), w0).
Proof.
  intros Hg.
  rewrite (search_eq _ _ Husername Hpattern Hg eq_refl), outcomes_keys.
  rewrite collect_raised.
  destruct fields as [|kv fields]; reflexivity.
Qed.

End SearchResponse.

(** ** The match evaluator *)

(** C2.  For a pattern that compiles, [regex_match] answers true exactly when
    the expression matches a stretch of the content that starts at index 0,
    and false otherwise; a match that starts further inside the content does
    not count.  In particular the content "xhello" does not match the pattern
    "hello", although the expression matches it from index 1. *)
Theorem regex_match_prefix_anchored {R : Runtime} (content pattern : string)
    (r : Re.regex) :
  re_compile pattern = Ok r ->
  (regex_match (JStr content) (JStr pattern) = Ok true <->
   Re.match_at r (list_ascii_of_string content) 0) /\
  (regex_match (JStr content) (JStr pattern) = Ok false <->
   ~ Re.match_at r (list_ascii_of_string content) 0) /\
  (r = Re.literal "hello" ->
   regex_match (JStr "xhello") (JStr pattern) = Ok false /\
   Re.match_at r (list_ascii_of_string "xhello") 1).
Proof.
  intros C.
  assert (E : forall text,
             regex_match (JStr text) (JStr pattern) =
             Ok (Re.pattern_match r text)).
  { intros text. unfold regex_match. cbn [py_re_compile]. rewrite C.
    cbn [Res.bind py_pattern_match].
    destruct (Re.pattern_match r text); reflexivity. }
  pose proof (ReFacts.match_here_at (list_ascii_of_string content) r) as M.
  fold (Re.pattern_match r content) in M.
  split; [|split].
  - rewrite E, <- M. split; [intros H; inversion H; reflexivity | intros ->; reflexivity].
  - rewrite E, <- M. destruct (Re.pattern_match r content); split; intros H.
    + discriminate.
    + exfalso. apply H. reflexivity.
    + intros D. discriminate.
    + reflexivity.
  - intros ->. split.
    + rewrite E. reflexivity.
    + exists (list_ascii_of_string "x"), (list_ascii_of_string "hello"), [].
      split; [reflexivity|]. split; [reflexivity|].
      assert (S : Re.match_here (list_ascii_of_string "hello")
                    (Re.literal "hello") false = true) by reflexivity.
      apply ReFacts.match_here_spec in S.
      destruct S as (w0 & rest & Hs & Hm).
      assert (W : w0 = list_ascii_of_string "hello" /\ rest = []).
      { clear - Hs Hm. cbn in Hs, Hm |- *.
        repeat match goal with
        | H : Re.matches (Re.Cat _ _) _ _ _ |- _ => inversion H; subst; clear H
        | H : Re.matches (Re.Lit _) _ _ _ |- _ => inversion H; subst; clear H
        | H : Re.matches (Re.Sym _) _ _ _ |- _ => inversion H; subst; clear H
        | H : Re.matches Re.Eps _ _ _ |- _ => inversion H; subst; clear H
        end.
        cbn in Hs.
        repeat match goal with
        | H : Ascii.eqb _ _ = true |- _ => apply Ascii.eqb_eq in H; subst
        end.
        inversion Hs; subst. auto. }
      destruct W as [-> ->]. exact Hm.
Qed.

(** ** Retrieving the content of a gist *)

(** C3, as amended.  When the id renders into the URL, the call answers a
    JSON object whose [files] is a dict with at least one item, the name of
    the first item is ASCII and the first item is a dict with a field
    [content], [retrieve_content] returns that content.  It raises when the
    network call raises, when the body is not JSON, when the response has no
    field [files], when [files] is not a dict or is an empty dict, and when
    the first item (under an ASCII name) has no field [content]. *)
Theorem retrieve_content_first_file {R : Runtime} (gist_id : json)
    (i : string) (w : World) :
  format_value gist_id = Ok i ->
  let id_url := ("https://api.github.com/gists/" ++ i)%string in
  (forall r w1 data name entry others content,
     requests_get id_url w = (Ok r, w1) ->
     body r = Some data ->
     py_getitem data "files" = Ok (JObj ((name, entry) :: others)) ->
     is_ascii name = true ->
     py_getitem entry "content" = Ok content ->
     retrieve_content gist_id w = (Ok content, w1)) /\
  (forall e w1,
     requests_get id_url w = (Raise e, w1) ->
     retrieve_content gist_id w = (Raise e, w1)) /\
  (forall r w1,
     requests_get id_url w = (Ok r, w1) ->
     body r = None ->
     retrieve_content gist_id w = (Raise ValueError, w1)) /\
  (forall r w1 data,
     requests_get id_url w = (Ok r, w1) ->
     body r = Some data ->
     (forall e, py_getitem data "files" = Raise e ->
                retrieve_content gist_id w = (Raise e, w1)) /\
     (forall files, py_getitem data "files" = Ok files ->
                    (forall fs, files <> JObj fs) ->
                    retrieve_content gist_id w = (Raise AttributeError, w1)) /\
     (py_getitem data "files" = Ok (JObj []) ->
      retrieve_content gist_id w = (Raise IndexError, w1)) /\
     (forall name entry others e,
        py_getitem data "files" = Ok (JObj ((name, entry) :: others)) ->
        is_ascii name = true ->
        py_getitem entry "content" = Raise e ->
        retrieve_content gist_id w = (Raise e, w1))).
Proof.
  intros Fi id_url. subst id_url.
  assert (F : forall data name entry others,
             py_getitem data "files" = Ok (JObj ((name, entry) :: others)) ->
             is_ascii name = true ->
             first_file_content data = py_getitem entry "content").
  { intros data name entry others Hf A. unfold first_file_content.
    rewrite Hf. cbn. unfold py_str. rewrite A. cbn.
    rewrite String.eqb_refl. reflexivity. }
  split; [|split; [|split]].
  - intros r w1 data name entry others content Hr Hb Hf A Hc.
    rewrite retrieve_content_eq, Fi, Hr. unfold response_json. rewrite Hb.
    cbn [Res.bind]. rewrite (F _ _ _ _ Hf A), Hc. reflexivity.
  - intros e w1 Hr. rewrite retrieve_content_eq, Fi, Hr. reflexivity.
  - intros r w1 Hr Hb. rewrite retrieve_content_eq, Fi, Hr.
    unfold response_json. rewrite Hb. reflexivity.
  - intros r w1 data Hr Hb.
    assert (E : retrieve_content gist_id w = (first_file_content data, w1)).
    { rewrite retrieve_content_eq, Fi, Hr. unfold response_json.
      rewrite Hb. reflexivity. }
    rewrite E. split; [|split; [|split]].
    + intros e Hf. unfold first_file_content. rewrite Hf. reflexivity.
    + intros files Hf Hn. unfold first_file_content. rewrite Hf.
      destruct files; try reflexivity. exfalso. eapply Hn. reflexivity.
    + intros Hf. unfold first_file_content. rewrite Hf. reflexivity.
    + intros name entry others e Hf A Hc.
      rewrite (F _ _ _ _ Hf A), Hc. reflexivity.
Qed.

(** ** The module on concrete requests *)

Lemma search_continues_after_failure_witness :
  @search Demo.runtime (Demo.request "alice" "hello") [] =
  (Ok (search_result "fail" (JStr "alice") (JStr "hello")
         ["https://gist.github.com/alice/abc123";
          "https://gist.github.com/alice/def456"]),
   [Demo.listing_url "alice"; Demo.fetch_url "abc123"; Demo.fetch_url "down";
    Demo.fetch_url "xyz"; Demo.fetch_url "def456"]).
Proof.
  change ["https://gist.github.com/alice/abc123";
          "https://gist.github.com/alice/def456"]
    with (collect [Ok ["https://gist.github.com/alice/abc123"]] ++
          collect [Ok []; Ok ["https://gist.github.com/alice/def456"]]).
  eapply (@search_continues_after_failure Demo.runtime
            (Demo.request "alice" "hello") (JStr "alice") (JStr "hello")
            eq_refl eq_refl [] _ _
            [Demo.summary "abc123"] (Demo.summary "down")
            [Demo.summary "xyz"; Demo.summary "def456"]
            _ _ ConnectionError).
  - reflexivity.
  - reflexivity.
  - reflexivity.
  - right. exists (JStr "down"). split; [reflexivity|]. left. reflexivity.
  - reflexivity.
Defined.

Lemma regex_match_prefix_anchored_witness :
  @regex_match Demo.runtime (JStr "xhello") (JStr "hello") = Ok false /\
  Re.match_at (Re.literal "hello") (list_ascii_of_string "xhello") 1.
Proof.
  exact (proj2 (proj2 (@regex_match_prefix_anchored Demo.runtime
                         "xhello" "hello" (Re.literal "hello") eq_refl))
               eq_refl).
Defined.

Lemma retrieve_content_first_file_witness :
  @retrieve_content Demo.runtime (JStr "def456") [] =
  (Ok (JStr "hello again"), [Demo.fetch_url "def456"]).
Proof.
  eapply (proj1 (@retrieve_content_first_file Demo.runtime
                   (JStr "def456") "def456" [] eq_refl)).
  - reflexivity.
  - reflexivity.
  - reflexivity.
  - reflexivity.
  - reflexivity.
Defined.

(** The failure the description of [retrieve_content] does not list: the
    API answers a gist it does not know with a message, a JSON object that
    has no [files]; the call succeeded and [retrieve_content] raises. *)
Lemma retrieve_content_unlisted_failure :
  @retrieve_content Demo.runtime (JStr "nothing") [] =
  (Raise KeyError, [Demo.fetch_url "nothing"]) /\
  ~ @listed_failure Demo.runtime (JStr "nothing") [].
Proof.
  split; [reflexivity|]. intros H. exact H.
Defined.

(** A first file whose name is not ASCII: [str] raises on the name. *)
Lemma retrieve_content_non_ascii_name :
  @retrieve_content Demo.runtime (JStr "cafe") [] =
  (Raise UnicodeEncodeError, [Demo.fetch_url "cafe"]).
Proof. reflexivity. Qed.

Lemma search_propagates_listing_error_witness :
  @search Demo.runtime (Demo.request "offline" "hello") [] =
  (Raise ConnectionError, [Demo.listing_url "offline"]).
Proof.
  exact (proj1 (@search_propagates_listing_error Demo.runtime
                  (Demo.request "offline" "hello") (JStr "offline")
                  (JStr "hello") eq_refl eq_refl [] ConnectionError
                  [Demo.listing_url "offline"] eq_refl)).
Defined.

Lemma search_preserves_listing_order_witness :
  exists status,
    @search Demo.runtime (Demo.request "alice" "hello") [] =
    (Ok (search_result status (JStr "alice") (JStr "hello")
           ["https://gist.github.com/alice/abc123";
            "https://gist.github.com/alice/def456"]),
     [Demo.listing_url "alice"; Demo.fetch_url "abc123";
      Demo.fetch_url "down"; Demo.fetch_url "xyz"; Demo.fetch_url "def456"]).
Proof.
  destruct (@search_preserves_listing_order Demo.runtime
              (Demo.request "alice" "hello") (JStr "alice") (JStr "hello")
              eq_refl eq_refl []
              (JArr [Demo.summary "abc123"; Demo.summary "down";
                     Demo.summary "xyz"; Demo.summary "def456"])
              [Demo.listing_url "alice"]
              [] (Demo.summary "abc123")
              [Demo.summary "down"; Demo.summary "xyz"]
              (Demo.summary "def456") []
              [] [Demo.listing_url "alice"]
              [Demo.listing_url "alice"; Demo.fetch_url "abc123"]
              [Raise ConnectionError; Ok []]
              [Demo.listing_url "alice"; Demo.fetch_url "abc123";
               Demo.fetch_url "down"; Demo.fetch_url "xyz"]
              [Demo.listing_url "alice"; Demo.fetch_url "abc123";
               Demo.fetch_url "down"; Demo.fetch_url "xyz";
               Demo.fetch_url "def456"]
              [] _
              eq_refl eq_refl eq_refl
              (ex_intro _ (JStr "abc123")
                 (ex_intro _ (JStr "hello world")
                    (conj eq_refl (conj eq_refl eq_refl))))
              eq_refl
              (ex_intro _ (JStr "def456")
                 (ex_intro _ (JStr "hello again")
                    (conj eq_refl (conj eq_refl eq_refl))))
              eq_refl)
    as (status & url_a & url_b & Ua & Ub & H).
  destruct Ua as (ia & ua & fa & Ia & Fu & Fa & ->).
  destruct Ub as (ib & ub & fb & Ib & Fu' & Fb & ->).
  cbv in Ia, Ib, Fu, Fu', Fa, Fb.
  inversion Ia; subst ia. inversion Ib; subst ib.
  inversion Fu; subst ua. inversion Fu'; subst ub.
  cbv in Fa, Fb. inversion Fa; subst fa. inversion Fb; subst fb.
  exists status. exact H.
Defined.

Lemma search_missing_field_witness :
  @search Demo.runtime (JObj [("username", JStr "alice")]) [] =
  (Raise KeyError, []).
Proof.
  exact (@search_missing_field Demo.runtime [("username", JStr "alice")] []
           (or_intror eq_refl)).
Defined.

Lemma search_without_match_witness :
  @search Demo.runtime (Demo.request "bob" "hello") [] =
  (Ok (search_result "success" (JStr "bob") (JStr "hello") []),
   [Demo.listing_url "bob"; Demo.fetch_url "xyz"; Demo.fetch_url "readme"]).
Proof.
  eapply (proj2 (@search_without_match Demo.runtime
                   (Demo.request "bob" "hello") (JStr "bob") (JStr "hello")
                   eq_refl eq_refl [] _ _ _ eq_refl eq_refl)).
  eapply NoneCons with (gist_id := JStr "xyz"); try reflexivity.
  eapply NoneCons with (gist_id := JStr "readme"); try reflexivity.
  apply NoneNil.
Defined.

Lemma search_response_shape_witness :
  exists status matched w',
    @search Demo.runtime (Demo.request "alice" "hello") [] =
    (Ok (JObj [("status", JStr status); ("username", JStr "alice");
               ("pattern", JStr "hello");
               ("matches", JArr (map JStr matched))]), w') /\
    (status = "success" \/ status = "fail").
Proof.
  destruct (@search_response_shape Demo.runtime
              (Demo.request "alice" "hello") (JStr "alice") (JStr "hello")
              eq_refl eq_refl []
              (JArr [Demo.summary "abc123"; Demo.summary "down";
                     Demo.summary "xyz"; Demo.summary "def456"])
              [Demo.listing_url "alice"]
              [Demo.summary "abc123"; Demo.summary "down";
               Demo.summary "xyz"; Demo.summary "def456"]
              eq_refl eq_refl)
    as (status & matched & w' & H & S & _).
  exists status, matched, w'. split; [exact H | exact S].
Defined.

Lemma search_matches_bounded_witness :
  exists status matched w',
    @search Demo.runtime (Demo.request "alice" "hello") [] =
    (Ok (search_result status (JStr "alice") (JStr "hello") matched), w') /\
    List.length matched <= 4.
Proof.
  destruct (@search_matches_bounded Demo.runtime
              (Demo.request "alice" "hello") (JStr "alice") (JStr "hello")
              eq_refl eq_refl []
              (JArr [Demo.summary "abc123"; Demo.summary "down";
                     Demo.summary "xyz"; Demo.summary "def456"])
              [Demo.listing_url "alice"]
              [Demo.summary "abc123"; Demo.summary "down";
               Demo.summary "xyz"; Demo.summary "def456"]
              eq_refl eq_refl)
    as (status & matched & w' & H & L & _).
  exists status, matched, w'. split; [exact H | exact L].
Defined.

Lemma search_object_listing_witness :
  @search Demo.runtime (Demo.request "limited" "hello") [] =
  (Ok (search_result "fail" (JStr "limited") (JStr "hello") []),
   [Demo.listing_url "limited"]).
Proof.
  exact (@search_object_listing Demo.runtime
           (Demo.request "limited" "hello") (JStr "limited") (JStr "hello")
           eq_refl eq_refl []
           [("message", JStr "API rate limit exceeded");
            ("documentation_url", JStr "https://developer.github.com/v3")]
           [Demo.listing_url "limited"] eq_refl).
Defined.

(** The listing that is a JSON object and does not give the status "fail":
    the empty object.  The loop has no turn and the status stays
    "success". *)
Lemma search_empty_object_listing :
  @gists_for_user Demo.runtime (JStr "blank") [] =
  (Ok (JObj []), [Demo.listing_url "blank"]) /\
  @search Demo.runtime (Demo.request "blank" "hello") [] =
  (Ok (search_result "success" (JStr "blank") (JStr "hello") []),
   [Demo.listing_url "blank"]) /\
  forall w,
    @search Demo.runtime (Demo.request "blank" "hello") [] <>
    (Ok (search_result "fail" (JStr "blank") (JStr "hello") []), w).
Proof.
  split; [reflexivity|]. split; [reflexivity|].
  intros w H. cbv in H. discriminate H.
Defined.

(** A few runs of the module. *)

Example ping_pong : ping = "pong".
Proof. reflexivity. Qed.

Example caret_matches_at_start :
  @regex_match Demo.runtime (JStr "hello world") (JStr "^hello") = Ok true.
Proof. reflexivity. Qed.

Example search_finds_inside :
  Re.pattern_match (Re.literal "hello") "xhello" = false /\
  Re.pattern_search (Re.literal "hello") "xhello" = true.
Proof. split; reflexivity. Qed.

Example unbalanced_pattern_fails_every_turn :
  @search Demo.runtime (Demo.request "bob" "(hello") [] =
  (Ok (search_result "fail" (JStr "bob") (JStr "(hello") []),
   [Demo.listing_url "bob"; Demo.fetch_url "xyz"; Demo.fetch_url "readme"]).
Proof. reflexivity. Qed.

Example search_caret_hello :
  @search Demo.runtime (Demo.request "alice" "^hello") [] =
  (Ok (search_result "fail" (JStr "alice") (JStr "^hello")
         ["https://gist.github.com/alice/abc123";
          "https://gist.github.com/alice/def456"]),
   [Demo.listing_url "alice"; Demo.fetch_url "abc123";
    Demo.fetch_url "down"; Demo.fetch_url "xyz"; Demo.fetch_url "def456"]).
Proof. reflexivity. Qed.

(** * Further properties of the module *)

(** ** More on the turns of the loop *)

Section MoreTurns.
Context {R : Runtime}.

(** A turn that raises has one of the three causes of [processing_raises]:
    the URL of a matching gist always renders once the listing was asked
    for with the same user name. *)
Lemma try_raises_processing username pattern gist w e w' u :
  format_value username = Ok u ->
  search_try username pattern gist [] w = (Raise e, w') ->
  processing_raises pattern gist w e w'.
Proof.
  intros Fu. rewrite search_try_eq. unfold processing_raises.
  destruct (py_getitem gist "id") as [gist_id|e0] eqn:Hid.
  - destruct (retrieve_content gist_id w) as [[content|e1] w1] eqn:F.
    + destruct (regex_match content pattern) as [[|]|e2] eqn:M.
      * rewrite format_return_url, Fu.
        destruct (retrieve_content_formats _ _ F) as [i Fi]. rewrite Fi.
        cbn [Res.bind]. discriminate.
      * discriminate.
      * intros H. inversion H; subst. right. exists gist_id.
        split; [reflexivity|]. right. exists content. auto.
    + intros H. inversion H; subst. right. exists gist_id.
      split; [reflexivity|]. left. exact F.
  - intros H. inversion H; subst. left. auto.
Qed.

Lemma outcomes_raised username pattern items : forall w rs w',
  outcomes username pattern items w = (rs, w') ->
  existsb raised rs = true ->
  exists pre gist post rs1 w1 e w2,
    items = pre ++ gist :: post /\
    outcomes username pattern pre w = (rs1, w1) /\
    search_try username pattern gist [] w1 = (Raise e, w2).
Proof.
  induction items as [|g items IH]; cbn [outcomes]; intros w rs w' H Hr.
  - inversion H; subst. discriminate.
  - destruct (search_try username pattern g [] w) as [r w1] eqn:T.
    destruct (outcomes username pattern items w1) as [rs' w2] eqn:E.
    inversion H; subst. destruct r as [urls|e].
    + cbn in Hr.
      destruct (IH _ _ _ E Hr) as (pre & gist & post & rs1 & w3 & e & w4 & -> & H1 & H2).
      exists (g :: pre), gist, post, (Ok urls :: rs1), w3, e, w4.
      split; [reflexivity|]. split; [|exact H2].
      cbn [outcomes]. rewrite T, H1. reflexivity.
    + exists [], g, items, [], w, e, w1. auto.
Qed.

Lemma all_raised_collect rs :
  forallb raised rs = true ->
  collect rs = [] /\ existsb raised rs = negb (Re.is_nil rs).
Proof.
  induction rs as [|[urls|e] rs IH]; cbn; intros H.
  - auto.
  - discriminate.
  - destruct (IH H) as [Hc _]. auto.
Qed.

(** When every turn raises whatever the world is, so do the turns of a
    listing. *)
Lemma outcomes_all_raise username pattern items :
  (forall gist w, raised (fst (search_try username pattern gist [] w)) = true) ->
  forall w rs w',
    outcomes username pattern items w = (rs, w') ->
    List.length rs = List.length items /\ forallb raised rs = true.
Proof.
  intros A. induction items as [|g items IH]; cbn [outcomes]; intros w rs w' H.
  - inversion H. auto.
  - pose proof (A g w) as Ag.
    destruct (search_try username pattern g [] w) as [r w1].
    destruct (outcomes username pattern items w1) as [rs' w2] eqn:E.
    inversion H; subst. destruct (IH _ _ _ E) as [L F].
    cbn in Ag |- *. rewrite Ag, F, L. auto.
Qed.

(** Iterating a text gives its characters, and a character has no item
    ["id"]. *)
Lemma outcomes_chars username pattern (s : string) w :
  outcomes username pattern (chars s) w =
  (map (fun _ => Raise TypeError) (chars s), w).
Proof.
  induction s as [|c s IH]; cbn [outcomes chars map]; [reflexivity|].
  rewrite search_try_eq. cbn [py_getitem]. rewrite IH. reflexivity.
Qed.

End MoreTurns.

(** ** The status of the response *)

Section Status.
Context {R : Runtime}.

Variables (post_data username pattern : json).
Hypothesis Husername : py_getitem post_data "username" = Ok username.
Hypothesis Hpattern : py_getitem post_data "pattern" = Ok pattern.

(** X1.  The status of the response is "fail" exactly when the turn of some
    gist of the listing raised, and "success" otherwise: matching or not
    matching never changes the status. *)
Theorem search_status_fail_iff w gists w0 items :
  gists_for_user username w = (Ok gists, w0) ->
  py_iter gists = Ok items ->
  exists status matched w',
    search post_data w =
    (Ok (search_result status username pattern matched), w') /\
    (status = "success" \/ status = "fail") /\
    (status = "fail" <->
     exists pre gist post rs1 w1 e w2,
       items = pre ++ gist :: post /\
       outcomes username pattern pre w0 = (rs1, w1) /\
       processing_raises pattern gist w1 e w2).
Proof.
  intros Hg Hi.
  destruct (gists_for_user_formats _ _ Hg) as [u Fu].
  destruct (outcomes username pattern items w0) as [rs w'] eqn:E.
  exists (status_after "success" rs), (collect rs), w'.
  split; [|split].
  - rewrite (search_eq _ _ Husername Hpattern Hg Hi), E. reflexivity.
  - apply status_after_cases.
  - split.
    + unfold status_after. destruct (existsb raised rs) eqn:X;
        [intros _ | discriminate].
      destruct (outcomes_raised _ _ _ _ E X)
        as (pre & gist & post & rs1 & w1 & e & w2 & Hs & H1 & T).
      exists pre, gist, post, rs1, w1, e, w2.
      split; [exact Hs|]. split; [exact H1|].
      eapply try_raises_processing; [exact Fu | exact T].
    + intros (pre & gist & post & rs1 & w1 & e & w2 & -> & H1 & Hr).
      destruct (outcomes username pattern post w2) as [rs2 w3] eqn:E2.
      rewrite (outcomes_split _ _ _ _ _ _ H1
                 (processing_raises_try username Hr) E2) in E.
      inversion E; subst. apply status_after_raise.
Qed.

(** X2.  A pattern that is not text, or that does not compile, is not
    rejected before the loop and does not make [search] raise: every turn of
    the loop raises, and the response has no matches, with the status "fail"
    when the listing has a gist and "success" when it has none. *)
Theorem search_bad_pattern w gists w0 items e :
  gists_for_user username w = (Ok gists, w0) ->
  py_iter gists = Ok items ->
  py_re_compile pattern = Raise e ->
  exists w',
    search post_data w =
    (Ok (search_result (match items with [] => "success" | _ => "fail" end)
                       username pattern []), w').
Proof.
  intros Hg Hi Hc.
  assert (A : forall gist w1,
             raised (fst (search_try username pattern gist [] w1)) = true).
  { intros gist w1. rewrite search_try_eq.
    destruct (py_getitem gist "id") as [gist_id|]; [|reflexivity].
    destruct (retrieve_content gist_id w1) as [[content|] w2]; [|reflexivity].
    unfold regex_match. rewrite Hc. reflexivity. }
  destruct (outcomes username pattern items w0) as [rs w'] eqn:E.
  edestruct outcomes_all_raise as [L F]; [exact A | exact E |].
  edestruct all_raised_collect as [Hcol Hex]; [exact F |].
  exists w'. rewrite (search_eq _ _ Husername Hpattern Hg Hi), E.
  unfold status_after. rewrite Hcol, Hex.
  destruct items; destruct rs; try discriminate; reflexivity.
Qed.

(** X3.  When the listing call answers JSON [null], a number or a boolean,
    the loop cannot start: [search] raises [TypeError] after the listing
    request and gives no response. *)
Theorem search_scalar_listing w gists w0 :
  gists_for_user username w = (Ok gists, w0) ->
  gists = JNull \/ (exists b, gists = JBool b) \/ (exists n, gists = JNum n) ->
  search post_data w = (Raise TypeError, w0).
Proof.
  intros Hg Hs. unfold search, Py.bind at 1 2 3 4, Py.lift.
  rewrite Husername, Hpattern, Hg.
  destruct Hs as [-> | [[b ->] | [n ->]]]; reflexivity.
Qed.

(** X4.  When the listing call answers a JSON text, the loop runs over its
    characters: no gist is fetched, every turn raises, and the response has
    no matches, with the status "fail" unless the text is empty. *)
Theorem search_text_listing w s w0 :
  gists_for_user username w = (Ok (JStr s), w0) ->
  search post_data w =
  (Ok (search_result (match s with EmptyString => "success" | _ => "fail" end)
                     username pattern []), w0).
Proof.
  intros Hg.
  rewrite (search_eq _ _ Husername Hpattern Hg eq_refl), outcomes_chars.
  rewrite collect_raised. destruct s; reflexivity.
Qed.

End Status.

(** ** Requests that are not answered *)

(** X5.  A request body that is not a JSON object (in particular the [None]
    that [get_json] returns for a body that is not JSON) makes [search]
    raise [TypeError] before any request is sent. *)
Theorem search_body_not_object {R : Runtime} (post_data : json) (w : World) :
  (forall fields, post_data <> JObj fields) ->
  search post_data w = (Raise TypeError, w).
Proof.
  intros H. unfold search, Py.bind at 1, Py.lift.
  destruct post_data; try reflexivity.
  exfalso. eapply H. reflexivity.
Qed.

(** X6.  A user name with a character that is not ASCII cannot be put in
    the URL of the listing: [search] raises [UnicodeEncodeError] before any
    request is sent, whatever the pattern is. *)
Theorem search_non_ascii_username {R : Runtime} (post_data pattern : json)
    (name : string) (w : World) :
  py_getitem post_data "username" = Ok (JStr name) ->
  py_getitem post_data "pattern" = Ok pattern ->
  is_ascii name = false ->
  search post_data w = (Raise UnicodeEncodeError, w).
Proof.
  intros Hu Hp A. unfold search, Py.bind at 1 2 3, Py.lift.
  rewrite Hu, Hp, gists_for_user_eq. cbn [format_value]. unfold py_str.
  rewrite A. reflexivity.
Qed.

(** X7.  The loop of [search] never raises, only appends to [matched], at
    most one URL per gist, and never sets the status back: a status "fail"
    stays "fail", and the status after the loop is the one before it or
    "fail". *)
Theorem search_loop_invariant {R : Runtime} (username pattern : json)
    (items : list json) (status : string) (matched : list string)
    (w : World) :
  exists status' new w',
    Py.for_each items (search_body username pattern) (status, matched) w =
    (Ok (status', matched ++ new), w') /\
    List.length new <= List.length items /\
    (status' = status \/ status' = "fail") /\
    (status = "fail" -> status' = "fail").
Proof.
  destruct (outcomes username pattern items w) as [rs w'] eqn:E.
  exists (status_after status rs), (collect rs), w'.
  split; [rewrite search_loop, E; reflexivity|].
  split; [apply (collect_bound (url_of username) (outcomes_turns _ _ _ _ E))|].
  split; [apply status_after_cases|].
  intros ->. destruct (status_after_cases "fail" rs); assumption.
Qed.

(** ** The errors of the match evaluator *)

(** X8.  [regex_match] answers a boolean exactly when the pattern is a text
    that compiles and the content is a text.  A pattern that is not text
    raises [TypeError] and a pattern that does not compile raises the error
    of the compiler, both whatever the content is; with a pattern that
    compiles, a content that is not text raises [TypeError]. *)
Theorem regex_match_answers_iff {R : Runtime} (content pattern : json) :
  ((exists found, regex_match content pattern = Ok found) <->
   (exists p r t,
      pattern = JStr p /\ re_compile p = Ok r /\ content = JStr t)) /\
  ((forall p, pattern <> JStr p) ->
   regex_match content pattern = Raise TypeError) /\
  (forall p e, pattern = JStr p -> re_compile p = Raise e ->
               regex_match content pattern = Raise e) /\
  (forall p r, pattern = JStr p -> re_compile p = Ok r ->
               (forall t, content <> JStr t) ->
               regex_match content pattern = Raise TypeError).
Proof.
  split; [|split; [|split]].
  - split.
    + intros [found H]. unfold regex_match in H.
      destruct pattern as [| | |p| |]; try discriminate. cbn in H.
      destruct (re_compile p) as [r|] eqn:C; [|discriminate].
      destruct content as [| | |t| |]; try discriminate.
      exists p, r, t. auto.
    + intros (p & r & t & -> & C & ->). unfold regex_match. cbn.
      rewrite C. cbn. destruct (Re.pattern_match r t); eauto.
  - intros H. destruct pattern; try reflexivity. exfalso. eapply H. reflexivity.
  - intros p e -> C. unfold regex_match. cbn. rewrite C. reflexivity.
  - intros p r -> C H. unfold regex_match. cbn. rewrite C. cbn.
    destruct content; try reflexivity. exfalso. eapply H. reflexivity.
Qed.

(** ** More on retrieving the content of a gist *)

(** X9.  [retrieve_content] looks at the first file only: two gists whose
    responses have the same first item in [files] give the same result,
    whatever their other files are. *)
Theorem retrieve_content_first_file_only {R : Runtime}
    (id1 id2 : json) (i1 i2 : string) (w1 w2 : World)
    r1 r2 w1' w2' data1 data2 name entry others1 others2 :
  format_value id1 = Ok i1 ->
  format_value id2 = Ok i2 ->
  requests_get ("https://api.github.com/gists/" ++ i1)%string w1 = (Ok r1, w1') ->
  requests_get ("https://api.github.com/gists/" ++ i2)%string w2 = (Ok r2, w2') ->
  body r1 = Some data1 ->
  body r2 = Some data2 ->
  py_getitem data1 "files" = Ok (JObj ((name, entry) :: others1)) ->
  py_getitem data2 "files" = Ok (JObj ((name, entry) :: others2)) ->
  fst (retrieve_content id1 w1) = fst (retrieve_content id2 w2).
Proof.
  intros F1 F2 G1 G2 B1 B2 H1 H2.
  rewrite !retrieve_content_eq, F1, F2, G1, G2. unfold response_json.
  rewrite B1, B2. cbn [fst Res.bind]. unfold first_file_content.
  rewrite H1, H2. cbn. unfold py_str.
  destruct (is_ascii name); cbn; [|reflexivity].
  rewrite String.eqb_refl. reflexivity.
Qed.

(** X10.  When the name of the first file of a gist has a character that is
    not ASCII, [retrieve_content] raises [UnicodeEncodeError], whether the
    file has a content or not. *)
Theorem retrieve_content_non_ascii_first_name {R : Runtime}
    (gist_id : json) (i : string) (w : World) r w' data name entry others :
  format_value gist_id = Ok i ->
  requests_get ("https://api.github.com/gists/" ++ i)%string w = (Ok r, w') ->
  body r = Some data ->
  py_getitem data "files" = Ok (JObj ((name, entry) :: others)) ->
  is_ascii name = false ->
  retrieve_content gist_id w = (Raise UnicodeEncodeError, w').
Proof.
  intros Fi G B H A.
  rewrite retrieve_content_eq, Fi, G. unfold response_json. rewrite B.
  cbn [Res.bind]. unfold first_file_content. rewrite H. cbn.
  unfold py_str. rewrite A. reflexivity.
Qed.

(** ** The listing call *)

(** X11.  [gists_for_user] sends one request, to
    [https://api.github.com/users/{username}/gists], and returns the decoded
    body as it is, whatever JSON value it is.  It raises the error of the
    network call, [ValueError] when the body is not JSON, and
    [UnicodeEncodeError], without sending the request, when the user name is
    a text that is not ASCII. *)
Theorem gists_for_user_passes_body {R : Runtime} (username : json)
    (w : World) :
  (forall u r w' data,
     format_value username = Ok u ->
     requests_get ("https://api.github.com/users/" ++ u ++ "/gists")%string w
       = (Ok r, w') ->
     body r = Some data ->
     gists_for_user username w = (Ok data, w')) /\
  (forall u r w',
     format_value username = Ok u ->
     requests_get ("https://api.github.com/users/" ++ u ++ "/gists")%string w
       = (Ok r, w') ->
     body r = None ->
     gists_for_user username w = (Raise ValueError, w')) /\
  (forall u e w',
     format_value username = Ok u ->
     requests_get ("https://api.github.com/users/" ++ u ++ "/gists")%string w
       = (Raise e, w') ->
     gists_for_user username w = (Raise e, w')) /\
  (forall name,
     username = JStr name -> is_ascii name = false ->
     gists_for_user username w = (Raise UnicodeEncodeError, w)).
Proof.
  split; [|split; [|split]].
  - intros u r w' data Fu G B. rewrite gists_for_user_eq, Fu, G.
    unfold response_json. rewrite B. reflexivity.
  - intros u r w' Fu G B. rewrite gists_for_user_eq, Fu, G.
    unfold response_json. rewrite B. reflexivity.
  - intros u e w' Fu G. rewrite gists_for_user_eq, Fu, G. reflexivity.
  - intros name -> A. rewrite gists_for_user_eq. cbn [format_value].
    unfold py_str. rewrite A. reflexivity.
Qed.

(** ** The requests of a search *)

Section Log.
Variable R : Runtime.

#[local] Abbreviation LR := (logged R).

Lemma logged_get url w l :
  @requests_get LR url (w, l) =
  (fst (@requests_get R url w), (snd (@requests_get R url w), l ++ [url])).
Proof.
  cbn. destruct (@requests_get R url w) as [r w']. reflexivity.
Qed.

Lemma logged_gists_for_user username w l :
  @gists_for_user LR username (w, l) =
  match @format_value R username with
  | Raise e => (Raise e, (w, l))
  | Ok u =>
      (fst (@gists_for_user R username w),
       (snd (@gists_for_user R username w),
        l ++ [("https://api.github.com/users/" ++ u ++ "/gists")%string]))
  end.
Proof.
  rewrite !gists_for_user_eq.
  change (@format_value LR username) with (@format_value R username).
  destruct (@format_value R username) as [u|]; [|reflexivity].
  rewrite logged_get.
  destruct (@requests_get R _ w) as [[r|e] w']; reflexivity.
Qed.

Lemma logged_retrieve_content gist_id w l :
  @retrieve_content LR gist_id (w, l) =
  match @format_value R gist_id with
  | Raise e => (Raise e, (w, l))
  | Ok i =>
      (fst (@retrieve_content R gist_id w),
       (snd (@retrieve_content R gist_id w),
        l ++ [("https://api.github.com/gists/" ++ i)%string]))
  end.
Proof.
  rewrite !retrieve_content_eq.
  change (@format_value LR gist_id) with (@format_value R gist_id).
  destruct (@format_value R gist_id) as [i|]; [|reflexivity].
  rewrite logged_get.
  destruct (@requests_get R _ w) as [[r|e] w']; reflexivity.
Qed.

Lemma logged_search_try username pattern gist matched w l :
  @search_try LR username pattern gist matched (w, l) =
  (fst (@search_try R username pattern gist matched w),
   (snd (@search_try R username pattern gist matched w),
    l ++ @fetch_urls_of R gist)).
Proof.
  rewrite !search_try_eq. unfold fetch_urls_of.
  destruct (py_getitem gist "id") as [gist_id|];
    [|rewrite app_nil_r; reflexivity].
  rewrite logged_retrieve_content.
  destruct (@format_value R gist_id) as [i|] eqn:Fi.
  - destruct (@retrieve_content R gist_id w) as [[content|e] w']; cbn [fst snd];
      [|reflexivity].
    change (@regex_match LR content pattern)
      with (@regex_match R content pattern).
    destruct (@regex_match R content pattern) as [[|]|]; try reflexivity.
    change (@py_format LR) with (@py_format R).
    destruct (@py_format R _ _); reflexivity.
  - rewrite retrieve_content_eq, Fi, app_nil_r. reflexivity.
Qed.

Lemma logged_outcomes username pattern items : forall w l,
  @outcomes LR username pattern items (w, l) =
  (fst (@outcomes R username pattern items w),
   (snd (@outcomes R username pattern items w),
    l ++ @fetch_urls R items)).
Proof.
  induction items as [|gist items IH]; intros w l; cbn [outcomes fetch_urls flat_map].
  - rewrite app_nil_r. reflexivity.
  - rewrite logged_search_try.
    destruct (@search_try R username pattern gist [] w) as [r w1].
    cbn [fst snd]. rewrite IH.
    destruct (@outcomes R username pattern items w1) as [rs w2].
    cbn [fst snd]. unfold fetch_urls. rewrite app_assoc. reflexivity.
Qed.

(** X12.  A search sends the listing request and then one request for each
    gist of the listing that has an id that renders into a URL, in the order
    of the listing and whatever the earlier requests answered; it sends
    nothing else.  Watching the requests does not change the result. *)
Theorem search_request_log post_data username pattern w l gists w0 items :
  py_getitem post_data "username" = Ok username ->
  py_getitem post_data "pattern" = Ok pattern ->
  @gists_for_user R username w = (Ok gists, w0) ->
  py_iter gists = Ok items ->
  exists u,
    @format_value R username = Ok u /\
    unlogged (@search LR post_data (w, l)) = @search R post_data w /\
    snd (snd (@search LR post_data (w, l))) =
    l ++ ("https://api.github.com/users/" ++ u ++ "/gists")%string
      :: @fetch_urls R items.
Proof.
  intros Hu Hp Hg Hi.
  destruct (gists_for_user_formats _ _ Hg) as [u Fu]. exists u.
  split; [exact Fu|].
  assert (HgL : @gists_for_user LR username (w, l) =
                (Ok gists,
                 (w0, l ++ [("https://api.github.com/users/" ++ u ++ "/gists")%string]))).
  { rewrite logged_gists_for_user, Fu, Hg. reflexivity. }
  rewrite (@search_eq LR _ _ _ _ _ _ _ Hu Hp HgL Hi).
  rewrite (@search_eq R _ _ _ _ _ _ _ Hu Hp Hg Hi).
  rewrite logged_outcomes.
  destruct (@outcomes R username pattern items w0) as [rs w1].
  cbn [fst snd]. unfold unlogged. cbn [fst snd].
  split; [reflexivity|]. rewrite <- app_assoc. reflexivity.
Qed.

End Log.

(** ** The further properties on concrete requests *)

Lemma search_status_fail_iff_witness :
  exists status matched w',
    @search Demo.runtime (Demo.request "alice" "hello") [] =
    (Ok (search_result status (JStr "alice") (JStr "hello") matched), w') /\
    (status = "success" \/ status = "fail").
Proof.
  destruct (@search_status_fail_iff Demo.runtime
              (Demo.request "alice" "hello") (JStr "alice") (JStr "hello")
              eq_refl eq_refl []
              (JArr [Demo.summary "abc123"; Demo.summary "down";
                     Demo.summary "xyz"; Demo.summary "def456"])
              [Demo.listing_url "alice"]
              [Demo.summary "abc123"; Demo.summary "down";
               Demo.summary "xyz"; Demo.summary "def456"]
              eq_refl eq_refl)
    as (status & matched & w' & H & S & _).
  exists status, matched, w'. split; [exact H | exact S].
Defined.

Lemma search_bad_pattern_witness :
  exists w',
    @search Demo.runtime (Demo.request "bob" "(hello") [] =
    (Ok (search_result "fail" (JStr "bob") (JStr "(hello") []), w').
Proof.
  exact (@search_bad_pattern Demo.runtime
           (Demo.request "bob" "(hello") (JStr "bob") (JStr "(hello")
           eq_refl eq_refl []
           (JArr [Demo.summary "xyz"; Demo.summary "readme"])
           [Demo.listing_url "bob"]
           [Demo.summary "xyz"; Demo.summary "readme"] ReError
           eq_refl eq_refl eq_refl).
Defined.

Lemma search_scalar_listing_witness :
  @search Lab.runtime (Demo.request "zero" "hello") [] =
  (Raise TypeError, [Demo.listing_url "zero"]).
Proof.
  exact (@search_scalar_listing Lab.runtime
           (Demo.request "zero" "hello") (JStr "zero") (JStr "hello")
           eq_refl eq_refl [] (JNum 0) [Demo.listing_url "zero"] eq_refl
           (or_intror (or_intror (ex_intro _ 0%Z eq_refl)))).
Defined.

Lemma search_text_listing_witness :
  @search Lab.runtime (Demo.request "text" "hello") [] =
  (Ok (search_result "fail" (JStr "text") (JStr "hello") []),
   [Demo.listing_url "text"]).
Proof.
  exact (@search_text_listing Lab.runtime
           (Demo.request "text" "hello") (JStr "text") (JStr "hello")
           eq_refl eq_refl [] "oops" [Demo.listing_url "text"] eq_refl).
Defined.

Lemma search_body_not_object_witness :
  @search Demo.runtime JNull [] = (Raise TypeError, []).
Proof.
  apply (@search_body_not_object Demo.runtime JNull []).
  intros fields H. discriminate H.
Defined.

Lemma search_non_ascii_username_witness :
  @search Demo.runtime (Demo.request Demo.e_acute "hello") [] =
  (Raise UnicodeEncodeError, []).
Proof.
  exact (@search_non_ascii_username Demo.runtime
           (Demo.request Demo.e_acute "hello") (JStr "hello") Demo.e_acute []
           eq_refl eq_refl eq_refl).
Defined.

Lemma regex_match_answers_iff_witness :
  exists found, @regex_match Demo.runtime (JStr "xhello") (JStr "hello") = Ok found.
Proof.
  apply (proj1 (@regex_match_answers_iff Demo.runtime
                  (JStr "xhello") (JStr "hello"))).
  exists "hello", (Re.literal "hello"), "xhello".
  split; [reflexivity|]. split; reflexivity.
Defined.

Lemma retrieve_content_first_file_only_witness :
  fst (@retrieve_content Lab.runtime (JStr "one") []) =
  fst (@retrieve_content Lab.runtime (JStr "two") ["earlier"]).
Proof.
  eapply (@retrieve_content_first_file_only Lab.runtime
            (JStr "one") (JStr "two") "one" "two" [] ["earlier"]);
    reflexivity.
Defined.

Lemma retrieve_content_non_ascii_first_name_witness :
  @retrieve_content Demo.runtime (JStr "cafe") [] =
  (Raise UnicodeEncodeError, [Demo.fetch_url "cafe"]).
Proof.
  eapply (@retrieve_content_non_ascii_first_name Demo.runtime
            (JStr "cafe") "cafe" []); reflexivity.
Defined.

Lemma gists_for_user_passes_body_witness :
  @gists_for_user Demo.runtime (JStr "limited") [] =
  (Ok (JObj [("message", JStr "API rate limit exceeded");
             ("documentation_url", JStr "https://developer.github.com/v3")]),
   [Demo.listing_url "limited"]).
Proof.
  eapply (proj1 (@gists_for_user_passes_body Demo.runtime
                   (JStr "limited") [])); reflexivity.
Defined.

Lemma search_request_log_witness :
  snd (snd (@search (logged Demo.runtime) (Demo.request "alice" "hello")
              ([], ["before"]))) =
  ["before"; Demo.listing_url "alice"; Demo.fetch_url "abc123";
   Demo.fetch_url "down"; Demo.fetch_url "xyz"; Demo.fetch_url "def456"].
Proof.
  destruct (@search_request_log Demo.runtime
              (Demo.request "alice" "hello") (JStr "alice") (JStr "hello")
              [] ["before"]
              (JArr [Demo.summary "abc123"; Demo.summary "down";
                     Demo.summary "xyz"; Demo.summary "def456"])
              [Demo.listing_url "alice"]
              [Demo.summary "abc123"; Demo.summary "down";
               Demo.summary "xyz"; Demo.summary "def456"]
              eq_refl eq_refl eq_refl eq_refl)
    as (u & Fu & _ & H).
  cbv in Fu. inversion Fu; subst u. exact H.
Defined.
